(** * Synthetic metric reconciliation: [fix_data_comprehensive]

    A shallow embedding of the conversion/revenue synthesizer of
    [src/data_process.py] (lines 345-494) and of the consistency count of
    [compare_before_after] (line 534).

    Conventions of the embedding.
    - Python [int] values are [Z]; Python/NumPy floating point values are
      idealised as exact rationals [Q], so rounding is not modelled and
      equalities between ratios are [Qeq].
    - The process-wide NumPy random stream is an explicit state threaded
      through every call.  NumPy itself is not part of the repository: its
      three sampling functions are parameters, constrained only by the
      ranges NumPy documents for them.
    - Python exceptions are explicit: every computation returns either a
      value together with the new stream state, or the exception raised. *)

From Stdlib Require Import ZArith QArith Qround Lia Lqa List String Bool.
Import ListNotations.
Open Scope Q_scope.

(** ** Python values and exceptions *)

Inductive exn : Type :=
| ZeroDivisionError
| ValueError
| KeyError.

Inductive result (A : Type) : Type :=
| Ok (a : A)
| Raise (e : exn).
Arguments Ok {A} a.
Arguments Raise {A} e.

(** A computation over a random stream of type [S]. *)
Definition M (S A : Type) : Type := S -> result (A * S).

Definition ret {S A} (a : A) : M S A := fun s => Ok (a, s).

Definition bind {S A B} (m : M S A) (k : A -> M S B) : M S B :=
  fun s => match m s with
           | Ok (a, s') => k a s'
           | Raise e => Raise e
           end.

Definition lift {S A} (r : result A) : M S A :=
  fun s => match r with
           | Ok a => Ok (a, s)
           | Raise e => Raise e
           end.

Notation "x <- m ;; k" := (bind m (fun x => k))
  (at level 61, m at next level, right associativity).
Notation "' pat <- m ;; k" := (bind m (fun x => match x with pat => k end))
  (at level 61, pat pattern, m at next level, right associativity).

(** Comparisons of floats, as booleans. *)
Definition Qltb (a b : Q) : bool := negb (Qle_bool b a).
Definition Qgtb (a b : Q) : bool := Qltb b a.

(** Python's [max(a, b)] and [min(a, b)]: the first argument is kept unless
    the second is strictly larger (resp. smaller). *)
Definition py_max (a b : Q) : Q := if Qgtb b a then b else a.
Definition py_min (a b : Q) : Q := if Qltb b a then b else a.
Definition py_max_int (a b : Z) : Z := if (b >? a)%Z then b else a.

(** Python's [int(x)] on a float: truncation towards zero. *)
Definition py_int (x : Q) : Z := Z.quot (Qnum x) (Z.pos (Qden x)).

(** Python's true division [a / b]. *)
Definition py_div (a b : Q) : result Q :=
  if Qeq_bool b 0 then Raise ZeroDivisionError else Ok (a / b).

(** [d.get(k, default)] and [d[k]] on a dict with string keys. *)
Fixpoint dict_get {A} (d : list (string * A)) (k : string) (default : A) : A :=
  match d with
  | [] => default
  | (k', v) :: d' => if String.eqb k' k then v else dict_get d' k default
  end.

Fixpoint dict_index {A} (d : list (string * A)) (k : string) : result A :=
  match d with
  | [] => Raise KeyError
  | (k', v) :: d' => if String.eqb k' k then Ok v else dict_index d' k
  end.

(** ** The [settings] tables (lines 357-371) and the age revenue
    multipliers (lines 427-430) *)

Definition age_cvr : list (string * Q) :=
  [ ("18-24", 0.010); ("25-29", 0.018); ("30-34", 0.028);
    ("35-39", 0.035); ("40-44", 0.042); ("45-49", 0.038); ("50+", 0.025) ]%string.

Definition gender_adj : list (string * Q) :=
  [ ("M", 1.0); ("F", 1.12) ]%string.

Definition revenue_tiers : list (string * (Q * Q)) :=
  [ ("basic", (40, 120)); ("standard", (150, 400)); ("premium", (600, 1200)) ]%string.

Definition age_revenue_mult_table : list (string * Q) :=
  [ ("18-24", 0.8); ("25-29", 0.9); ("30-34", 1.1);
    ("35-39", 1.3); ("40-44", 1.4); ("45-49", 1.2); ("50+", 1.0) ]%string.

(** [get_product_tier] (lines 373-380). *)
Definition get_product_tier (spent : Q) (clicks : Z) : string :=
  if Qltb spent 10 || (clicks <? 5)%Z then "basic"%string
  else if Qgtb spent 50 || (clicks >? 30)%Z then "premium"%string
  else "standard"%string.


(** ** Records of the table *)

Record Row : Type := mkRow {
  age : string;
  gender : string;
  Impressions : Z;
  Clicks : Z;
  Spent : Q;
  Total_Conversion : Z;
  Approved_Conversion : Z;
  Revenue_Total : Q;
  Revenue_Approved : Q;
  CVR_Total : Q;
  CVR_Approved : Q;
  CPA_Total : Q;
  CPA_Approved : Q;
  ROAS_Total : Q;
  ROAS_Approved : Q
}.

(** The six values returned by [calculate_realistic_metrics]. *)
Record Metrics : Type := mkMetrics {
  new_conv : Z;
  approved_conv : Z;
  total_rev : Q;
  approved_rev : Q;
  cvr_total : Q;
  cvr_approved : Q
}.

Section Synthesizer.

(** The state of the NumPy random stream and the NumPy functions the
    synthesizer calls on it. *)
Variable rng : Type.
Variable np_uniform : Q -> Q -> rng -> Q * rng.
Variable np_random : rng -> Q * rng.
Variable np_binomial : Z -> Q -> rng -> Z * rng.
Variable np_seed : Z -> rng.

Definition uniform (low high : Q) : M rng Q :=
  fun s => Ok (np_uniform low high s).

Definition random : M rng Q :=
  fun s => Ok (np_random s).

(** [np.random.binomial(n, p)] raises [ValueError] when [n < 0] or [p] is
    outside [0, 1]. *)
Definition binomial (n : Z) (p : Q) : M rng Z :=
  fun s => if (n <? 0)%Z || Qltb p 0 || Qgtb p 1
           then Raise ValueError
           else Ok (np_binomial n p s).

(** [np.random.seed(n)] overwrites the stream state. *)
Definition seed (n : Z) : M rng unit :=
  fun _ => Ok (tt, np_seed n).

(** *** [calculate_realistic_metrics] (lines 382-452), block by block *)

(** Lines 393-413: the clamped conversion rate of a record with
    [clicks <> 0]. *)
Definition realistic_cvr (row : Row) : M rng Q :=
  let clicks := Clicks row in
  let impressions := Impressions row in
  let base_cvr := dict_get age_cvr (age row) 0.028 in
  let gender_mult := dict_get gender_adj (gender row) 1.0 in
  ctr <- (if (impressions >? 0)%Z
          then lift (py_div (inject_Z clicks) (inject_Z impressions))
          else ret 0) ;;
  let quality_adj :=
    if Qgtb ctr 0.0003 then 1.2 else if Qltb ctr 0.0001 then 0.8 else 1.0 in
  '(max_cvr, variance) <-
     (if (clicks <=? 3)%Z then
        variance <- uniform 0.6 1.5 ;; ret (0.12, variance)
      else if (clicks <=? 8)%Z then
        variance <- uniform 0.8 1.3 ;; ret (0.08, variance)
      else
        variance <- uniform 0.9 1.1 ;; ret (0.06, variance)) ;;
  let realistic_cvr := base_cvr * gender_mult * quality_adj * variance in
  ret (py_max 0.005 (py_min max_cvr realistic_cvr)).

(** Lines 416-419: the conversion count. *)
Definition new_conversions (clicks : Z) (realistic_cvr : Q) : M rng Z :=
  if Qltb (realistic_cvr * inject_Z clicks) 0.15 then
    u <- random ;;
    ret (if Qltb u (realistic_cvr * inject_Z clicks) then 1%Z else 0%Z)
  else
    binomial clicks realistic_cvr.

(** Lines 422-437: [(total_revenue, revenue_per_conv)]. *)
Definition total_revenue (row : Row) (new_conversions : Z) : M rng (Q * Q) :=
  if (new_conversions >? 0)%Z then
    let product_tier := get_product_tier (Spent row) (Clicks row) in
    '(low, high) <- lift (dict_index revenue_tiers product_tier) ;;
    let age_revenue_mult := dict_get age_revenue_mult_table (age row) 1.0 in
    base_revenue <- uniform low high ;;
    let revenue_per_conv := base_revenue * age_revenue_mult in
    ret (inject_Z new_conversions * revenue_per_conv, revenue_per_conv)
  else
    ret (0, 0).

(** Lines 440-446: [(approved_conv, approved_revenue)]. *)
Definition approved (new_conversions : Z) (revenue_per_conv : Q) : M rng (Z * Q) :=
  if (new_conversions >? 0)%Z then
    approval_rate <- uniform 0.70 0.88 ;;
    let approved_conv :=
      py_max_int 0 (py_int (inject_Z new_conversions * approval_rate)) in
    let approved_revenue :=
      if (approved_conv >? 0)%Z then inject_Z approved_conv * revenue_per_conv else 0 in
    ret (approved_conv, approved_revenue)
  else
    ret (0%Z, 0).

Definition calculate_realistic_metrics (row : Row) : M rng Metrics :=
  let clicks := Clicks row in
  if (clicks =? 0)%Z then
    ret (mkMetrics 0 0 0 0 0 0)
  else
    cvr <- realistic_cvr row ;;
    new_conversions <- new_conversions clicks cvr ;;
    '(total_revenue, revenue_per_conv) <- total_revenue row new_conversions ;;
    '(approved_conv, approved_revenue) <- approved new_conversions revenue_per_conv ;;
    new_cvr_total <- lift (py_div (inject_Z new_conversions) (inject_Z clicks)) ;;
    new_cvr_approved <- lift (py_div (inject_Z approved_conv) (inject_Z clicks)) ;;
    ret (mkMetrics new_conversions approved_conv total_revenue approved_revenue
                   new_cvr_total new_cvr_approved).

(** *** The per-record loop body of [fix_data_comprehensive]
    (lines 464-492) *)
Definition fix_row (row : Row) : M rng Row :=
  m <- calculate_realistic_metrics row ;;
  let spent := Spent row in
  cpa_total <- (if (new_conv m >? 0)%Z
                then lift (py_div spent (inject_Z (new_conv m)))
                else ret 0) ;;
  cpa_approved <- (if (approved_conv m >? 0)%Z
                   then lift (py_div spent (inject_Z (approved_conv m)))
                   else ret 0) ;;
  '(roas_total, roas_approved) <-
     (if Qgtb spent 0 then
        rt <- lift (py_div (total_rev m) spent) ;;
        ra <- lift (py_div (approved_rev m) spent) ;;
        ret (rt, ra)
      else ret (0, 0)) ;;
  ret {| age := age row;
         gender := gender row;
         Impressions := Impressions row;
         Clicks := Clicks row;
         Spent := Spent row;
         Total_Conversion := new_conv m;
         Approved_Conversion := approved_conv m;
         Revenue_Total := total_rev m;
         Revenue_Approved := approved_rev m;
         CVR_Total := cvr_total m;
         CVR_Approved := cvr_approved m;
         CPA_Total := cpa_total;
         CPA_Approved := cpa_approved;
         ROAS_Total := roas_total;
         ROAS_Approved := roas_approved |}.

(** The loop over the rows, in table order (lines 459-492). *)
Fixpoint fix_rows (df : list Row) : M rng (list Row) :=
  match df with
  | [] => ret []
  | row :: rest =>
      row' <- fix_row row ;;
      rest' <- fix_rows rest ;;
      ret (row' :: rest')
  end.

(** [fix_data_comprehensive] (lines 345-494) on a table already read:
    seed the stream (line 455), then run the loop. *)
Definition fix_data_comprehensive (df : list Row) : M rng (list Row) :=
  _ <- seed 42 ;;
  fix_rows df.

End Synthesizer.

Arguments uniform {rng} np_uniform low high.
Arguments random {rng} np_random.
Arguments binomial {rng} np_binomial n p.
Arguments seed {rng} np_seed n.
Arguments realistic_cvr {rng} np_uniform row.
Arguments new_conversions {rng} np_random np_binomial clicks realistic_cvr.
Arguments total_revenue {rng} np_uniform row new_conversions.
Arguments approved {rng} np_uniform new_conversions revenue_per_conv.
Arguments calculate_realistic_metrics {rng} np_uniform np_random np_binomial row.
Arguments fix_row {rng} np_uniform np_random np_binomial row.
Arguments fix_rows {rng} np_uniform np_random np_binomial df.
Arguments fix_data_comprehensive {rng} np_uniform np_random np_binomial np_seed df.

(** The consistency count of [compare_before_after] (line 534). *)
Definition high_roas_zero_conv (fixed_df : list Row) : nat :=
  List.length
    (List.filter (fun r => Qgtb (ROAS_Total r) 5 && (Total_Conversion r =? 0)%Z)
                 fixed_df).

(** What [calculate_realistic_metrics] guarantees about the metrics [m] it
    returns for [row]. *)
Record metrics_ok (row : Row) (m : Metrics) : Prop := {
  conv_nonneg : (0 <= new_conv m)%Z;
  conv_le_clicks : (0 <= Clicks row)%Z -> (new_conv m <= Clicks row)%Z;
  approval :
    (new_conv m = 0%Z /\ approved_conv m = 0%Z) \/
    ((0 < new_conv m)%Z /\
     exists approval_rate, 0.70 <= approval_rate <= 0.88 /\
       approved_conv m = py_max_int 0 (py_int (inject_Z (new_conv m) * approval_rate)));
  revenue :
    exists revenue_per_conv,
      ((0 < new_conv m)%Z -> 0 < revenue_per_conv) /\
      total_rev m = (if (new_conv m >? 0)%Z
                     then inject_Z (new_conv m) * revenue_per_conv else 0) /\
      approved_rev m = (if (approved_conv m >? 0)%Z
                        then inject_Z (approved_conv m) * revenue_per_conv else 0);
  cvr :
    if (Clicks row =? 0)%Z then cvr_total m = 0 /\ cvr_approved m = 0
    else cvr_total m = inject_Z (new_conv m) / inject_Z (Clicks row) /\
         cvr_approved m = inject_Z (approved_conv m) / inject_Z (Clicks row)
}.

(** What the loop body guarantees about the record [row'] written for
    [row]: the input columns are kept, the metric columns satisfy
    [metrics_ok], and the four ratios are the guarded quotients. *)
Record row_ok (row row' : Row) : Prop := {
  keeps_age : age row' = age row;
  keeps_gender : gender row' = gender row;
  keeps_impressions : Impressions row' = Impressions row;
  keeps_clicks : Clicks row' = Clicks row;
  keeps_spent : Spent row' = Spent row;
  metrics :
    metrics_ok row
      (mkMetrics (Total_Conversion row') (Approved_Conversion row')
                 (Revenue_Total row') (Revenue_Approved row')
                 (CVR_Total row') (CVR_Approved row'));
  cpa_total_eq :
    CPA_Total row' = if (Total_Conversion row' >? 0)%Z
                     then Spent row / inject_Z (Total_Conversion row') else 0;
  cpa_approved_eq :
    CPA_Approved row' = if (Approved_Conversion row' >? 0)%Z
                        then Spent row / inject_Z (Approved_Conversion row') else 0;
  roas_total_eq :
    ROAS_Total row' = if Qgtb (Spent row) 0
                      then Revenue_Total row' / Spent row else 0;
  roas_approved_eq :
    ROAS_Approved row' = if Qgtb (Spent row) 0
                         then Revenue_Approved row' / Spent row else 0
}.

(** Total correctness of a computation: from state [s] it returns, and the
    value and final state satisfy [P]. *)
Definition returns {S A} (m : M S A) (s : S) (P : A -> S -> Prop) : Prop :=
  match m s with
  | Ok (a, s') => P a s'
  | Raise _ => False
  end.

(** ** A concrete random stream

    A linear congruential generator with the interface of the NumPy
    functions above; it is used to run the model on concrete tables. *)
Module Lcg.

Definition modulus : Z := 2147483648.

Definition next (s : Z) : Z := (1103515245 * s + 12345) mod modulus.

(** The draw in [0, 1) carried by state [s]. *)
Definition unit_draw (s : Z) : Q := (s mod modulus) # 2147483648.

Definition uniform (low high : Q) (s : Z) : Q * Z :=
  (low + (high - low) * unit_draw s, next s).

Definition random (s : Z) : Q * Z := (unit_draw s, next s).

(** [n] Bernoulli trials of probability [p], one draw each. *)
Fixpoint trials (n : nat) (p : Q) (s : Z) : Z * Z :=
  match n with
  | O => (0%Z, s)
  | S n' =>
      let '(k, s') := trials n' p (next s) in
      (((if Qltb (unit_draw s) p then 1 else 0) + k)%Z, s')
  end.

Definition binomial (n : Z) (p : Q) (s : Z) : Z * Z :=
  trials (Z.to_nat n) p s.

Definition seed (n : Z) : Z := n mod modulus.

End Lcg.

(** The scenario row of the specification; the metric columns hold the
    values read from the input file. *)
Definition scenario_row (tc ac : Z) (rt ra cvt cva cpt cpa rot roa : Q) : Row :=
  mkRow "35-39" "F" 1000 20 60 tc ac rt ra cvt cva cpt cpa rot roa.

Definition sample_row (a g : string) (i c : Z) (sp : Q) : Row :=
  mkRow a g i c sp 0 0 0 0 0 0 0 0 0 0.

Definition sample_table : list Row :=
  [ sample_row "35-39" "F" 1000 20 60;
    sample_row "30-34" "M" 7350 1 (143 # 100);
    sample_row "45-49" "M" 4133 0 0;
    sample_row "40-44" "F" 250000 60 (10034 # 100);
    sample_row "18-24" "X" 0 3 0 ].

(** The pipeline run on the concrete stream. *)
Definition lcg_fix_row : Row -> M Z Row :=
  fix_row Lcg.uniform Lcg.random Lcg.binomial.

Definition lcg_fix_data_comprehensive : list Row -> M Z (list Row) :=
  fix_data_comprehensive Lcg.uniform Lcg.random Lcg.binomial Lcg.seed.

(** The pair [(Total_Conversion, Approved_Conversion)] of each record of
    a run, [[]] if the run raised. *)
Definition conversion_counts (r : result (list Row * Z)) : list (Z * Z) :=
  match r with
  | Ok (out, _) => List.map (fun r => (Total_Conversion r, Approved_Conversion r)) out
  | Raise _ => []
  end.

(** ** The other counts of [compare_before_after] (lines 496-552) *)

Definition count_rows {A} (f : A -> bool) (df : list A) : nat :=
  List.length (List.filter f df).

(** [analyze_roas] (lines 503-506): the records above 15 and above 30. *)
Definition high_roas (df : list Row) : nat :=
  count_rows (fun r => Qgtb (ROAS_Total r) 15) df.

Definition extreme_roas (df : list Row) : nat :=
  count_rows (fun r => Qgtb (ROAS_Total r) 30) df.

(** [analyze_cvr] (lines 517-520). *)
Definition high_cvr (df : list Row) : nat :=
  count_rows (fun r => Qgtb (CVR_Total r) 0.15) df.

Definition extreme_cvr (df : list Row) : nat :=
  count_rows (fun r => Qgtb (CVR_Total r) 0.3) df.

(** The loop of lines 538-543. *)
Definition revenue_conv_consistent (fixed_df : list Row) : nat :=
  List.fold_left
    (fun acc row =>
       if (Total_Conversion row =? 0)%Z && Qeq_bool (Revenue_Total row) 0 then S acc
       else if (Total_Conversion row >? 0)%Z && Qgtb (Revenue_Total row) 0 then S acc
       else acc)
    fixed_df 0%nat.

(** The revenue per conversion of line 549: [Revenue_Total /
    Total_Conversion] over the records with conversions. *)
Definition revenue_per_conv_series (fixed_df : list Row) : list Q :=
  List.map (fun r => Revenue_Total r / inject_Z (Total_Conversion r))
           (List.filter (fun r => (Total_Conversion r >? 0)%Z) fixed_df).

(** The input columns of a record, which the loop never writes. *)
Definition input_columns (r : Row) : string * string * Z * Z * Q :=
  (age r, gender r, Impressions r, Clicks r, Spent r).

(** ** Computations without state *)

Definition rbind {A B} (r : result A) (k : A -> result B) : result B :=
  match r with
  | Ok a => k a
  | Raise e => Raise e
  end.

Notation "x <~ r ;; k" := (rbind r (fun x => k))
  (at level 61, r at next level, right associativity).

Notation "' pat <~ r ;; k" := (rbind r (fun x => match x with pat => k end))
  (at level 61, pat pattern, r at next level, right associativity).

Fixpoint rmap {A B} (f : A -> result B) (l : list A) : result (list B) :=
  match l with
  | [] => Ok []
  | a :: l' => b <~ f a ;; bs <~ rmap f l' ;; Ok (b :: bs)
  end.

(** [k in d] on a dict with string keys. *)
Definition dict_mem {A} (d : list (string * A)) (k : string) : bool :=
  List.existsb (fun kv => String.eqb (fst kv) k) d.

(** * The preprocessing script: [src/data_process.py], lines 1-330

    The table is the list of its rows; [np.nan] is [None]. *)
Module Preprocess.

(** The columns of [KAG_conversion_data.csv] the script computes with. *)
Record Ad : Type := mkAd {
  Impressions : Z;
  Clicks : Z;
  Spent : Q;
  Total_Conversion : Z;
  Approved_Conversion : Z
}.

(** The columns added by step 4 (lines 129-162). *)
Record Kpi : Type := mkKpi {
  CTR : Q;
  CVR_Total : Q;
  CVR_Approved : Q;
  CPC : option Q;
  CPM : option Q;
  CPA_Total : option Q;
  CPA_Approved : option Q;
  Avg_Frequency : option Q;
  Revenue_Total : Z;
  Revenue_Approved : Z;
  ROAS_Total : option Q;
  ROAS_Approved : option Q
}.

(** [x / y if guard else 0] and [x / y if guard else np.nan]. *)
Definition ratio_or_zero (guard : bool) (x y : Q) : result Q :=
  if guard then py_div x y else Ok 0.

Definition ratio_or_nan (guard : bool) (x y : Q) : result (option Q) :=
  if guard then v <~ py_div x y ;; Ok (Some v) else Ok None.

Definition AOV : Z := 50.

(** Step 4 on one row (lines 129-162). *)
Definition kpis (row : Ad) : result Kpi :=
  let impressions := inject_Z (Impressions row) in
  let clicks := inject_Z (Clicks row) in
  let total := inject_Z (Total_Conversion row) in
  let approved := inject_Z (Approved_Conversion row) in
  ctr <~ ratio_or_zero (Impressions row >? 0)%Z clicks impressions ;;
  cvr_total <~ ratio_or_zero (Clicks row >? 0)%Z total clicks ;;
  cvr_approved <~ ratio_or_zero (Clicks row >? 0)%Z approved clicks ;;
  cpc <~ ratio_or_nan (Clicks row >? 0)%Z (Spent row) clicks ;;
  cpm <~ (if (Impressions row >? 0)%Z
          then v <~ py_div (Spent row) impressions ;; Ok (Some (v * 1000))
          else Ok None) ;;
  cpa_total <~ ratio_or_nan (Total_Conversion row >? 0)%Z (Spent row) total ;;
  cpa_approved <~ ratio_or_nan (Approved_Conversion row >? 0)%Z (Spent row) approved ;;
  avg_frequency <~ ratio_or_nan (Clicks row >? 0)%Z impressions clicks ;;
  let revenue_total := (Total_Conversion row * AOV)%Z in
  let revenue_approved := (Approved_Conversion row * AOV)%Z in
  roas_total <~ ratio_or_nan (Qgtb (Spent row) 0) (inject_Z revenue_total) (Spent row) ;;
  roas_approved <~ ratio_or_nan (Qgtb (Spent row) 0) (inject_Z revenue_approved) (Spent row) ;;
  Ok (mkKpi ctr cvr_total cvr_approved cpc cpm cpa_total cpa_approved avg_frequency
            revenue_total revenue_approved roas_total roas_approved).

(** The table after step 4: every row with its new columns. *)
Definition add_kpis (df : list Ad) : result (list (Ad * Kpi)) :=
  rmap (fun row => k <~ kpis row ;; Ok (row, k)) df.

(** Step 3.1 (lines 82-106): the funnel checks and the issues
    reported.  The report text is left out; an issue is its kind and its
    count. *)
Inductive issue : Type :=
| Impressions_lt_Clicks
| Clicks_lt_Total_Conversion
| Total_Conversion_lt_Approved_Conversion.

Definition impressions_clicks_issue (df : list Ad) : nat :=
  count_rows (fun r => (Impressions r <? Clicks r)%Z) df.

Definition clicks_conversion_issue (df : list Ad) : nat :=
  count_rows (fun r => (Clicks r <? Total_Conversion r)%Z) df.

Definition total_approved_issue (df : list Ad) : nat :=
  count_rows (fun r => (Total_Conversion r <? Approved_Conversion r)%Z) df.

Definition logic_issues (df : list Ad) : list (issue * nat) :=
  (if (0 <? impressions_clicks_issue df)%nat
   then [(Impressions_lt_Clicks, impressions_clicks_issue df)] else []) ++
  (if (0 <? clicks_conversion_issue df)%nat
   then [(Clicks_lt_Total_Conversion, clicks_conversion_issue df)] else []) ++
  (if (0 <? total_approved_issue df)%nat
   then [(Total_Conversion_lt_Approved_Conversion, total_approved_issue df)] else []).

(** Step 6 (lines 191-219): the benchmark table and the status of a
    metric's mean. *)
Definition benchmarks : list (string * list (string * Q)) :=
  [ ("CTR", [("excellent", 0.03); ("good", 0.02); ("average", 0.015); ("poor", 0.01)]);
    ("CPC", [("excellent", 0.5); ("good", 1.0); ("average", 1.5); ("poor", 2.0)]);
    ("CPM", [("excellent", 5); ("good", 10); ("average", 15); ("poor", 20)]);
    ("CVR_Total", [("excellent", 0.05); ("good", 0.03); ("average", 0.02); ("poor", 0.01)])
  ]%string.

Inductive status : Type :=
| Excellent
| Good
| Average
| Needs_optimization.

(** The body of the loop of lines 207-219 for one metric: [None] when
    nothing is printed (the mean is NaN or the metric has no benchmark). *)
Definition benchmark_status (metric : string) (current_value : option Q)
  : result (option status) :=
  match current_value with
  | None => Ok None
  | Some current_value =>
      if dict_mem benchmarks metric then
        benchmark <~ dict_index benchmarks metric ;;
        excellent <~ dict_index benchmark "excellent"%string ;;
        if Qle_bool excellent current_value then Ok (Some Excellent) else
        good <~ dict_index benchmark "good"%string ;;
        if Qle_bool good current_value then Ok (Some Good) else
        average <~ dict_index benchmark "average"%string ;;
        if Qle_bool average current_value then Ok (Some Average)
        else Ok (Some Needs_optimization)
      else Ok None
  end.

(** Step 7 (lines 226-246).  The conditions are boolean columns of the
    table before cleaning; [df_clean[condition]] keeps the rows of
    [df_clean] whose index label carries [True] in [condition]. *)
Definition clean_conditions (df : list (Ad * Kpi)) : list (list bool) :=
  [ List.map (fun r => Qgtb (Spent (fst r)) 0) df;
    List.map (fun r => (Impressions (fst r) >? 0)%Z) df;
    List.map (fun r => (Impressions (fst r) >=? Clicks (fst r))%Z) df;
    List.map (fun r => (Clicks (fst r) >=? Total_Conversion (fst r))%Z) df;
    List.map (fun r => (Total_Conversion (fst r) >=? Approved_Conversion (fst r))%Z) df ].

Definition with_index {A} (df : list A) : list (nat * A) :=
  List.combine (List.seq 0 (List.length df)) df.

Definition boolean_index {A} (df_clean : list (nat * A)) (condition : list bool)
  : list (nat * A) :=
  List.filter (fun ir => List.nth (fst ir) condition false) df_clean.

Definition clean (df : list (Ad * Kpi)) : list (nat * (Ad * Kpi)) :=
  List.fold_left boolean_index (clean_conditions df) (with_index df).

(** The conjunction of the five conditions of lines 230-236 on one row. *)
Definition passes_cleaning (row : Ad) : bool :=
  Qgtb (Spent row) 0 && (Impressions row >? 0)%Z &&
  (Impressions row >=? Clicks row)%Z &&
  (Clicks row >=? Total_Conversion row)%Z &&
  (Total_Conversion row >=? Approved_Conversion row)%Z.

End Preprocess.

(** Rows of [KAG_conversion_data.csv]-like data. *)
Definition sample_ads : list Preprocess.Ad :=
  [ Preprocess.mkAd 7350 1 1.43 2 1;
    Preprocess.mkAd 17861 2 1.82 2 0;
    Preprocess.mkAd 693 0 0 1 0;
    Preprocess.mkAd 4259 1 1.25 1 0;
    Preprocess.mkAd 15615 3 4.77 1 1;
    Preprocess.mkAd 1000 20 60 4 2 ].

(** * The outlier cleaning script: [src/data_outlier_cleaning.py]

    A DataFrame is its list of column names and its rows; a row maps
    column names to cells, a cell is a float or NaN ([None]).  Only numeric
    columns are read by the script. *)
Module Outlier.

Definition cell : Type := option Q.

Definition frame_row : Type := list (string * cell).

Record DataFrame : Type := mkFrame {
  columns : list string;
  rows : list frame_row
}.

Definition value (row : frame_row) (metric : string) : cell :=
  dict_get row metric None.

(** [metric in df.columns] and [df[metric]]. *)
Definition has_column (df : DataFrame) (metric : string) : bool :=
  List.existsb (String.eqb metric) (columns df).

Definition column (df : DataFrame) (metric : string) : result (list cell) :=
  if has_column df metric
  then Ok (List.map (fun row => value row metric) (rows df))
  else Raise KeyError.

Definition len (df : DataFrame) : Z := Z.of_nat (List.length (rows df)).

(** Comparisons of a column with a number; NaN compares false. *)
Definition ge (x : Q) (c : cell) : bool :=
  match c with Some v => Qle_bool x v | None => false end.
Definition le (x : Q) (c : cell) : bool :=
  match c with Some v => Qle_bool v x | None => false end.
Definition gt (x : Q) (c : cell) : bool :=
  match c with Some v => Qgtb v x | None => false end.
Definition lt (x : Q) (c : cell) : bool :=
  match c with Some v => Qltb v x | None => false end.
Definition notna (c : cell) : bool :=
  match c with Some _ => true | None => false end.
Definition isnull (c : cell) : bool := negb (notna c).

(** [a & b] on boolean columns, [mask.sum()] and [df[mask]]. *)
Definition mask_and (a b : list bool) : list bool :=
  List.map (fun p => andb (fst p) (snd p)) (List.combine a b).

Definition mask_sum (mask : list bool) : Z :=
  Z.of_nat (List.length (List.filter (fun b => b) mask)).

Definition select (df : DataFrame) (mask : list bool) : DataFrame :=
  mkFrame (columns df)
          (List.map fst (List.filter snd (List.combine (rows df) mask))).

Definition CLEANING_CONFIG : list (string * Q) :=
  [ ("ROAS_MAX", 100); ("ROAS_MIN", 0.01);
    ("CPA_MAX", 1000); ("CPA_MIN", 0.1);
    ("CPC_MAX", 50); ("CPC_MIN", 0.01);
    ("CPM_MAX", 200); ("CPM_MIN", 0.01);
    ("MIN_SPEND", 0.01); ("MIN_CONVERSIONS", 0) ]%string.

Definition BACKUP_CONFIG : list (string * Q) :=
  [ ("ROAS_MAX", 500); ("ROAS_MIN", 0.001);
    ("CPA_MAX", 5000); ("CPA_MIN", 0.01);
    ("CPC_MAX", 100); ("CPC_MIN", 0.001);
    ("CPM_MAX", 1000); ("CPM_MIN", 0.001);
    ("MIN_SPEND", 0.001); ("MIN_CONVERSIONS", 0) ]%string.

(** The values returned by [identify_outliers]: a count, or the pair
    [(0, 0)] as a tuple of integers. *)
Inductive pyval : Type :=
| PyInt (n : Z)
| PyTuple (items : list Z).

(** [identify_outliers] (lines 61-75). *)
Definition identify_outliers (df : DataFrame) (metric : string) (min_val max_val : Q)
  : result pyval :=
  if negb (has_column df metric) then Ok (PyTuple [0; 0]%Z) else
  high <~ column df metric ;;
  let outliers_high := mask_sum (List.map (gt max_val) high) in
  low <~ column df metric ;;
  let outliers_low := mask_sum (List.map (lt min_val) low) in
  null <~ column df metric ;;
  let outliers_null := mask_sum (List.map isnull null) in
  Ok (PyInt (outliers_high + outliers_low + outliers_null)).

(** The rules of [apply_cleaning_rules]. *)
Inductive rule : Type :=
| ROAS_rule
| CPA_rule
| CPC_rule
| CPM_rule
| Minimum_rule.

(** The cleaning log; its timestamp is left out, and a step is the
    rule and the number of records it removed. *)
Record Log : Type := mkLog {
  original_count : Z;
  steps : list (rule * Z);
  final_count : Z;
  total_removed : Z;
  removal_rate : Q
}.

(** One of the four range rules (lines 142-188), which differ only in
    the metric and the configuration keys. *)
Definition range_rule (r : rule) (metric kmin kmax : string)
    (config : list (string * Q)) (cleaned_df : DataFrame) (steps : list (rule * Z))
  : result (DataFrame * list (rule * Z)) :=
  if has_column cleaned_df metric then
    let before := len cleaned_df in
    c1 <~ column cleaned_df metric ;;
    lo <~ dict_index config kmin ;;
    c2 <~ column cleaned_df metric ;;
    hi <~ dict_index config kmax ;;
    c3 <~ column cleaned_df metric ;;
    let mask := mask_and (mask_and (List.map (ge lo) c1) (List.map (le hi) c2))
                         (List.map notna c3) in
    let cleaned_df := select cleaned_df mask in
    let removed := (before - len cleaned_df)%Z in
    Ok (cleaned_df, steps ++ [(r, removed)])
  else Ok (cleaned_df, steps).

(** [apply_cleaning_rules] (lines 130-226). *)
Definition apply_cleaning_rules (df : DataFrame) (config : list (string * Q))
  : result (DataFrame * Log) :=
  let original_count := len df in
  let cleaned_df := df in
  '(cleaned_df, steps) <~
     range_rule ROAS_rule "ROAS_Approved" "ROAS_MIN" "ROAS_MAX" config cleaned_df [] ;;
  '(cleaned_df, steps) <~
     range_rule CPA_rule "CPA_Approved" "CPA_MIN" "CPA_MAX" config cleaned_df steps ;;
  '(cleaned_df, steps) <~
     range_rule CPC_rule "CPC" "CPC_MIN" "CPC_MAX" config cleaned_df steps ;;
  '(cleaned_df, steps) <~
     range_rule CPM_rule "CPM" "CPM_MIN" "CPM_MAX" config cleaned_df steps ;;
  let before := len cleaned_df in
  spent <~ column cleaned_df "Spent" ;;
  min_spend <~ dict_index config "MIN_SPEND" ;;
  approved <~ column cleaned_df "Approved_Conversion" ;;
  min_conversions <~ dict_index config "MIN_CONVERSIONS" ;;
  let cleaned_df :=
    select cleaned_df (mask_and (List.map (ge min_spend) spent)
                                (List.map (ge min_conversions) approved)) in
  let removed := (before - len cleaned_df)%Z in
  let steps := steps ++ [(Minimum_rule, removed)] in
  let final_count := len cleaned_df in
  let total_removed := (original_count - final_count)%Z in
  ratio <~ py_div (inject_Z total_removed) (inject_Z original_count) ;;
  let removal_rate := ratio * 100 in
  Ok (cleaned_df, mkLog original_count steps final_count total_removed removal_rate).

(** Lines 229-256: the default configuration, and the relaxed one when
    fewer than 50 records are left. *)
Definition final_clean (df : DataFrame) : result (DataFrame * Log * string) :=
  '(df_final_clean, log) <~ apply_cleaning_rules df CLEANING_CONFIG ;;
  if (len df_final_clean <? 50)%Z then
    '(df_final_clean, log) <~ apply_cleaning_rules df BACKUP_CONFIG ;;
    Ok (df_final_clean, log, "facebook_ads_final_clean_relaxed.csv"%string)
  else
    Ok (df_final_clean, log, "facebook_ads_final_clean.csv"%string).

(** What a row must satisfy to be kept by a range rule: nothing when
    the metric is not a column ([None]), and otherwise to lie within the
    configured bounds. *)
Definition in_range (lo hi : Q) (c : cell) : bool :=
  ge lo c && le hi c && notna c.

Definition rule_bounds (cols : list string) (config : list (string * Q))
    (metric kmin kmax : string) : result (option (Q * Q)) :=
  if List.existsb (String.eqb metric) cols then
    lo <~ dict_index config kmin ;;
    hi <~ dict_index config kmax ;;
    Ok (Some (lo, hi))
  else Ok None.

Definition keeps_range (bounds : option (Q * Q)) (metric : string) (row : frame_row)
  : bool :=
  match bounds with
  | Some (lo, hi) => in_range lo hi (value row metric)
  | None => true
  end.

(** The bounds read by the last rule, and what it keeps. *)
Definition minimum_bounds (cols : list string) (config : list (string * Q))
  : result (Q * Q) :=
  if List.existsb (String.eqb "Spent"%string) cols then
    min_spend <~ dict_index config "MIN_SPEND" ;;
    if List.existsb (String.eqb "Approved_Conversion"%string) cols then
      min_conversions <~ dict_index config "MIN_CONVERSIONS" ;;
      Ok (min_spend, min_conversions)
    else Raise KeyError
  else Raise KeyError.

Definition keeps_minimum (bounds : Q * Q) (row : frame_row) : bool :=
  ge (fst bounds) (value row "Spent") &&
  ge (snd bounds) (value row "Approved_Conversion").

(** The rows kept by the five rules together. *)
Definition keeps (roas cpa cpc cpm : option (Q * Q)) (minimum : Q * Q)
    (row : frame_row) : bool :=
  keeps_range roas "ROAS_Approved" row && keeps_range cpa "CPA_Approved" row &&
  keeps_range cpc "CPC" row && keeps_range cpm "CPM" row &&
  keeps_minimum minimum row.

(** The log entry of a range rule: none when its metric is not a
    column. *)
Definition rule_step (bounds : option (Q * Q)) (r : rule) (removed : Z)
  : list (rule * Z) :=
  match bounds with
  | Some _ => [(r, removed)]
  | None => []
  end.

Definition count_of (l : list frame_row) : Z := Z.of_nat (List.length l).

Definition sum_removed (steps : list (rule * Z)) : Z :=
  List.fold_right Z.add 0%Z (List.map snd steps).

End Outlier.

(** [facebook_ads_clean.csv] as written by the preprocessing script
    (line 327) and read by the cleaning script (line 42): the numeric
    columns of the cleaned table, NaN kept as NaN. *)
Definition clean_csv_columns : list string :=
  [ "Impressions"; "Clicks"; "Spent"; "Total_Conversion"; "Approved_Conversion";
    "CTR"; "CVR_Total"; "CVR_Approved"; "CPC"; "CPM"; "CPA_Total"; "CPA_Approved";
    "Avg_Frequency"; "Revenue_Total"; "Revenue_Approved";
    "ROAS_Total"; "ROAS_Approved" ]%string.

Definition clean_csv_row (r : Preprocess.Ad * Preprocess.Kpi) : Outlier.frame_row :=
  let (ad, k) := r in
  [ ("Impressions", Some (inject_Z (Preprocess.Impressions ad)));
    ("Clicks", Some (inject_Z (Preprocess.Clicks ad)));
    ("Spent", Some (Preprocess.Spent ad));
    ("Total_Conversion", Some (inject_Z (Preprocess.Total_Conversion ad)));
    ("Approved_Conversion", Some (inject_Z (Preprocess.Approved_Conversion ad)));
    ("CTR", Some (Preprocess.CTR k));
    ("CVR_Total", Some (Preprocess.CVR_Total k));
    ("CVR_Approved", Some (Preprocess.CVR_Approved k));
    ("CPC", Preprocess.CPC k);
    ("CPM", Preprocess.CPM k);
    ("CPA_Total", Preprocess.CPA_Total k);
    ("CPA_Approved", Preprocess.CPA_Approved k);
    ("Avg_Frequency", Preprocess.Avg_Frequency k);
    ("Revenue_Total", Some (inject_Z (Preprocess.Revenue_Total k)));
    ("Revenue_Approved", Some (inject_Z (Preprocess.Revenue_Approved k)));
    ("ROAS_Total", Preprocess.ROAS_Total k);
    ("ROAS_Approved", Preprocess.ROAS_Approved k) ]%string.

Definition clean_csv (df_clean : list (nat * (Preprocess.Ad * Preprocess.Kpi)))
  : Outlier.DataFrame :=
  Outlier.mkFrame clean_csv_columns (List.map (fun ir => clean_csv_row (snd ir)) df_clean).



(** ** Sample tables for the two scripts and their runs *)

Definition sample_frame : Outlier.DataFrame :=
  Eval vm_compute in
    match Preprocess.add_kpis sample_ads with
    | Ok with_kpis => clean_csv (Preprocess.clean with_kpis)
    | Raise _ => Outlier.mkFrame [] []
    end.

Definition empty_log : Outlier.Log := Outlier.mkLog 0 [] 0 0 0.

Definition sample_cleaned : Outlier.DataFrame * Outlier.Log :=
  Eval vm_compute in
    match Outlier.apply_cleaning_rules sample_frame Outlier.CLEANING_CONFIG with
    | Ok r => r
    | Raise _ => (Outlier.mkFrame [] [], empty_log)
    end.

Definition sample_final : Outlier.DataFrame * Outlier.Log * string :=
  Eval vm_compute in
    match Outlier.final_clean sample_frame with
    | Ok r => r
    | Raise _ => (Outlier.mkFrame [] [], empty_log, EmptyString)
    end.


Definition sample_head : list Row := List.firstn 2 sample_table.
Definition sample_tail : list Row := List.skipn 2 sample_table.

Definition sample_head_run : list Row * Z :=
  Eval vm_compute in
    match fix_rows Lcg.uniform Lcg.random Lcg.binomial sample_head 0%Z with
    | Ok r => r
    | Raise _ => ([], 0%Z)
    end.

Definition sample_tail_run : list Row * Z :=
  Eval vm_compute in
    match fix_rows Lcg.uniform Lcg.random Lcg.binomial sample_tail (snd sample_head_run) with
    | Ok r => r
    | Raise _ => ([], 0%Z)
    end.

Definition one_click_row : Row := sample_row "30-34" "M" 7350 1 1.43.
Definition sixty_click_row : Row := sample_row "40-44" "F" 250000 60 100.34.

(** The sample frame without its [Spent] column. *)
Definition frame_without_spent : Outlier.DataFrame :=
  Outlier.mkFrame
    (List.filter (fun c => negb (String.eqb c "Spent")) clean_csv_columns)
    (Outlier.rows sample_frame).

(** * Facts *)

(** ** Comparisons, clamps and truncation *)

Lemma Qltb_true (a b : Q) : Qltb a b = true <-> a < b.
Proof.
  unfold Qltb. rewrite negb_true_iff. split; intro H.
  - apply Qnot_le_lt. intro Hle. apply Qle_bool_iff in Hle. congruence.
  - destruct (Qle_bool b a) eqn:E; [|reflexivity].
    apply Qle_bool_iff in E. exfalso. apply (Qlt_not_le _ _ H E).
Qed.

Lemma Qltb_false (a b : Q) : Qltb a b = false <-> b <= a.
Proof.
  unfold Qltb. rewrite negb_false_iff. apply Qle_bool_iff.
Qed.

(** Case analysis on a float comparison, leaving the order fact in the
    context. *)
Ltac cmp a b :=
  let E := fresh "E" in
  destruct (Qltb a b) eqn:E;
  [apply Qltb_true in E | apply Qltb_false in E].

Lemma py_min_le (a b : Q) : py_min a b <= a.
Proof. unfold py_min. cmp b a; lra. Qed.

Lemma py_max_ge (a b : Q) : a <= py_max a b.
Proof. unfold py_max, Qgtb. cmp a b; lra. Qed.

Lemma py_max_le (a b c : Q) : a <= c -> b <= c -> py_max a b <= c.
Proof. unfold py_max, Qgtb. intros. cmp a b; lra. Qed.

(** The clamp of lines 413 stays between the floor and any ceiling that
    is at least the floor. *)
Lemma clamp_bounds (max_cvr x : Q) :
  0.005 <= max_cvr ->
  0.005 <= py_max 0.005 (py_min max_cvr x) <= max_cvr.
Proof.
  intros H. split.
  - apply py_max_ge.
  - apply py_max_le; [assumption | apply py_min_le].
Qed.

Lemma py_int_floor (x : Q) : 0 <= x -> py_int x = Qfloor x.
Proof.
  destruct x as [n d]. unfold Qle, py_int, Qfloor. simpl. intros H.
  apply Z.quot_div_nonneg; lia.
Qed.

Lemma py_int_nonneg (x : Q) : 0 <= x -> (0 <= py_int x)%Z.
Proof.
  intros H. rewrite (py_int_floor x H).
  change 0%Z with (Qfloor 0). apply Qfloor_resp_le, H.
Qed.

Lemma py_int_le (x : Q) (n : Z) : 0 <= x -> x <= inject_Z n -> (py_int x <= n)%Z.
Proof.
  intros H0 H. rewrite (py_int_floor x H0).
  rewrite <- (Qfloor_Z n). apply Qfloor_resp_le, H.
Qed.

Lemma py_int_lt_1 (x : Q) : 0 <= x -> x < 1 -> py_int x = 0%Z.
Proof.
  intros H0 H1. rewrite (py_int_floor x H0).
  pose proof (Qfloor_le x) as Hle. pose proof (Qlt_floor x) as Hlt.
  assert (A : (0 <= Qfloor x)%Z).
  { change 0%Z with (Qfloor 0). apply Qfloor_resp_le, H0. }
  assert (B : (Qfloor x < 1)%Z).
  { rewrite Zlt_Qlt. apply Qle_lt_trans with x; assumption. }
  lia.
Qed.

Lemma inject_Z_pos (n : Z) : (0 < n)%Z -> 0 < inject_Z n.
Proof. intros H. change 0 with (inject_Z 0). rewrite <- Zlt_Qlt. exact H. Qed.

Lemma py_div_ok (a b : Q) : ~ b == 0 -> py_div a b = Ok (a / b).
Proof.
  intros H. unfold py_div. destruct (Qeq_bool b 0) eqn:E; [|reflexivity].
  apply Qeq_bool_iff in E. contradiction.
Qed.

Lemma py_div_int_ok (a : Q) (n : Z) : n <> 0%Z -> py_div a (inject_Z n) = Ok (a / inject_Z n).
Proof.
  intros H. apply py_div_ok. intro E. apply H.
  unfold Qeq, inject_Z in E. simpl in E. lia.
Qed.

(** ** Dictionaries *)

Lemma dict_get_Forall {A} (P : A -> Prop) (d : list (string * A)) (k : string) (default : A) :
  Forall (fun kv => P (snd kv)) d -> P default -> P (dict_get d k default).
Proof.
  intros Hd Hdef. induction Hd as [|[k' v] d' Hv _ IH]; simpl.
  - exact Hdef.
  - destruct (String.eqb k' k); [exact Hv | exact IH].
Qed.

Lemma age_revenue_mult_pos (a : string) : 0 < dict_get age_revenue_mult_table a 1.0.
Proof.
  apply dict_get_Forall; [|reflexivity].
  repeat constructor.
Qed.

Lemma get_product_tier_cases (spent : Q) (clicks : Z) :
  get_product_tier spent clicks = "basic"%string \/
  get_product_tier spent clicks = "standard"%string \/
  get_product_tier spent clicks = "premium"%string.
Proof.
  unfold get_product_tier.
  destruct (_ || _); [auto|]. destruct (_ || _); auto.
Qed.

Lemma revenue_tier_found (spent : Q) (clicks : Z) :
  exists low high,
    dict_index revenue_tiers (get_product_tier spent clicks) = Ok (low, high) /\
    0 < low /\ low <= high.
Proof.
  destruct (get_product_tier_cases spent clicks) as [E|[E|E]]; rewrite E;
    simpl; do 2 eexists; (split; [reflexivity|]); split; reflexivity || discriminate.
Qed.

(** ** Rules for [returns] *)

Lemma returns_ret {S A} (a : A) (s : S) (P : A -> S -> Prop) :
  P a s -> returns (ret a) s P.
Proof. exact (fun H => H). Qed.

Lemma returns_bind {S A B} (m : M S A) (k : A -> M S B) (s : S) (P : B -> S -> Prop) :
  returns m s (fun a s' => returns (k a) s' P) -> returns (bind m k) s P.
Proof.
  unfold returns, bind. destruct (m s) as [[a s']|e]; [exact (fun H => H) | intros []].
Qed.

Lemma returns_lift {S A} (r : result A) (a : A) (s : S) (P : A -> S -> Prop) :
  r = Ok a -> P a s -> returns (lift r) s P.
Proof. intros -> H. exact H. Qed.

Lemma returns_weaken {S A} (m : M S A) (s : S) (P P' : A -> S -> Prop) :
  returns m s P -> (forall a s', P a s' -> P' a s') -> returns m s P'.
Proof.
  unfold returns. destruct (m s) as [[a s']|e]; [|intros []].
  intros H HP. apply HP, H.
Qed.

Lemma returns_inv {S A} (m : M S A) (s : S) (P : A -> S -> Prop) :
  returns m s P -> exists a s', m s = Ok (a, s') /\ P a s'.
Proof.
  unfold returns. destruct (m s) as [[a s']|e]; [|intros []].
  intros H. exists a, s'. split; [reflexivity | exact H].
Qed.

Lemma bind_inv {S A B} (m : M S A) (k : A -> M S B) (s s' : S) (b : B) :
  bind m k s = Ok (b, s') ->
  exists a s1, m s = Ok (a, s1) /\ k a s1 = Ok (b, s').
Proof.
  unfold bind. destruct (m s) as [[a s1]|e]; [|discriminate].
  intros H. exists a, s1. split; [reflexivity | exact H].
Qed.

(** ** Consequences of [metrics_ok] and [row_ok] *)

Lemma py_max_int_0 (x : Z) : (0 <= x)%Z -> py_max_int 0 x = x.
Proof. unfold py_max_int. intros H. destruct (x >? 0)%Z eqn:E; lia. Qed.

(** The approved count of a positive count [n] at a rate in
    [0.70, 0.88]. *)
Lemma approved_count_bounds (n : Z) (approval_rate : Q) :
  (0 < n)%Z -> 0.70 <= approval_rate <= 0.88 ->
  let a := py_max_int 0 (py_int (inject_Z n * approval_rate)) in
  a = py_int (inject_Z n * approval_rate) /\
  (0 <= a <= n)%Z /\ (a <= Qfloor (0.88 * inject_Z n))%Z /\ (n = 1%Z -> a = 0%Z).
Proof.
  intros Hn [Hlo Hhi]. pose proof (inject_Z_pos n Hn) as Hq.
  assert (H0 : 0 <= inject_Z n * approval_rate) by nra.
  cbv zeta. rewrite (py_max_int_0 _ (py_int_nonneg _ H0)).
  split; [reflexivity|]. split; [|split].
  - split; [apply py_int_nonneg, H0 | apply py_int_le; [exact H0 | nra]].
  - rewrite (py_int_floor _ H0). apply Qfloor_resp_le. nra.
  - intros ->. apply py_int_lt_1; [exact H0|]. change (inject_Z 1) with 1. lra.
Qed.

Lemma metrics_ok_approved (row : Row) (m : Metrics) :
  metrics_ok row m ->
  (0 <= approved_conv m <= new_conv m)%Z /\
  (approved_conv m <= Qfloor (0.88 * inject_Z (new_conv m)))%Z /\
  (new_conv m = 1%Z -> approved_conv m = 0%Z) /\
  (approved_conv m = 0%Z \/
   exists approval_rate, 0.70 <= approval_rate <= 0.88 /\
     approved_conv m = py_int (inject_Z (new_conv m) * approval_rate)).
Proof.
  intros [_ _ Happ _ _]. destruct Happ as [[-> ->]|[Hn (rate & Hrate & Ha)]].
  - split; [lia|]. split; [discriminate|]. split; [reflexivity | left; reflexivity].
  - destruct (approved_count_bounds _ _ Hn Hrate) as (E & Hb & Hf & H1).
    rewrite Ha. split; [exact Hb|]. split; [exact Hf|]. split; [exact H1|].
    right. exists rate. split; [exact Hrate | exact E].
Qed.

Lemma metrics_ok_revenue (row : Row) (m : Metrics) :
  metrics_ok row m ->
  (total_rev m == 0 <-> new_conv m = 0%Z) /\
  (approved_rev m == 0 <-> approved_conv m = 0%Z) /\
  ((0 < new_conv m)%Z -> 0 < total_rev m) /\
  (approved_conv m = 0%Z -> approved_rev m = 0).
Proof.
  intros Hm. destruct (metrics_ok_approved _ _ Hm) as ([Ha0 Han] & _).
  destruct Hm as [Hn0 _ _ (rpc & Hrpc & Htr & Har) _].
  rewrite Htr, Har. clear Htr Har.
  assert (Hpos : forall k, (0 < k <= new_conv m)%Z -> 0 < inject_Z k * rpc).
  { intros k Hk. apply Qmult_lt_0_compat; [apply inject_Z_pos; lia | apply Hrpc; lia]. }
  split; [|split; [|split]].
  - destruct (new_conv m >? 0)%Z eqn:E.
    + assert (0 < inject_Z (new_conv m) * rpc) by (apply Hpos; lia).
      split; intro; [lra | lia].
    + split; intro; [lia | reflexivity].
  - destruct (approved_conv m >? 0)%Z eqn:E.
    + assert (0 < inject_Z (approved_conv m) * rpc) by (apply Hpos; lia).
      split; intro; [lra | lia].
    + split; intro; [lia | reflexivity].
  - intros H. replace (new_conv m >? 0)%Z with true by (symmetry; lia).
    apply Hpos. lia.
  - intros ->. reflexivity.
Qed.

(** A record without conversions has a zero return on spend. *)
Lemma row_ok_roas_zero (row row' : Row) :
  row_ok row row' -> Total_Conversion row' = 0%Z -> ROAS_Total row' == 0.
Proof.
  intros H Hz.
  destruct (metrics_ok_revenue _ _ (metrics _ _ H)) as ((_ & Hrev) & _).
  cbn in Hrev. specialize (Hrev Hz).
  rewrite (roas_total_eq _ _ H). destruct (Qgtb (Spent row) 0); [|reflexivity].
  rewrite Hrev. unfold Qdiv. apply Qmult_0_l.
Qed.

Lemma filter_nil_Forall {A} (f : A -> bool) (l : list A) :
  Forall (fun x => f x = false) l -> List.filter f l = [].
Proof.
  induction 1 as [|x l Hx _ IH]; [reflexivity|]. simpl. rewrite Hx. exact IH.
Qed.

(** ** The synthesizer, for any random stream within NumPy's ranges *)

Section SynthesizerFacts.

Variable rng : Type.
Variable np_uniform : Q -> Q -> rng -> Q * rng.
Variable np_random : rng -> Q * rng.
Variable np_binomial : Z -> Q -> rng -> Z * rng.
Variable np_seed : Z -> rng.

(** [np.random.uniform(low, high)] lies between its bounds. *)
Hypothesis uniform_range :
  forall low high s, low <= high ->
    low <= fst (np_uniform low high s) <= high.

(** [np.random.binomial(n, p)] counts successes among [n] trials. *)
Hypothesis binomial_range :
  forall n p s, (0 <= n)%Z -> 0 <= p <= 1 ->
    (0 <= fst (np_binomial n p s) <= n)%Z.

Local Abbreviation realistic_cvr' := (realistic_cvr np_uniform).
Local Abbreviation new_conversions' := (new_conversions np_random np_binomial).
Local Abbreviation total_revenue' := (total_revenue np_uniform).
Local Abbreviation approved' := (approved np_uniform).
Local Abbreviation calculate' := (calculate_realistic_metrics np_uniform np_random np_binomial).
Local Abbreviation fix_row' := (fix_row np_uniform np_random np_binomial).
Local Abbreviation fix_rows' := (fix_rows np_uniform np_random np_binomial).
Local Abbreviation fix_data' := (fix_data_comprehensive np_uniform np_random np_binomial np_seed).

(** The click-through ratio of line 398 never divides by zero. *)
Lemma ctr_returns (clicks impressions : Z) (s : rng) (P : Q -> rng -> Prop) :
  (forall ctr, P ctr s) ->
  returns (if (impressions >? 0)%Z
           then lift (py_div (inject_Z clicks) (inject_Z impressions))
           else ret 0) s P.
Proof.
  intros HP. destruct (impressions >? 0)%Z eqn:E.
  - eapply returns_lift; [apply py_div_int_ok; lia | apply HP].
  - apply returns_ret, HP.
Qed.

(** Lines 393-413 return a rate between the floor and the largest tier
    ceiling, whatever the variance drawn. *)
Lemma realistic_cvr_returns (row : Row) (s : rng) :
  returns (realistic_cvr' row) s (fun cvr _ => 0.005 <= cvr <= 0.12).
Proof.
  unfold realistic_cvr. apply returns_bind, ctr_returns. intros ctr.
  apply returns_bind.
  destruct (Clicks row <=? 3)%Z; [|destruct (Clicks row <=? 8)%Z];
    unfold returns, bind, uniform, ret;
    destruct (np_uniform _ _ s) as [variance s1];
    match goal with
    | |- _ <= py_max _ (py_min ?c ?x) <= _ =>
        pose proof (clamp_bounds c x) as [Hlo Hhi]; [discriminate|]
    end; split; try assumption; lra.
Qed.

(** Lines 416-419 never raise on a clamped rate, and the count drawn is
    a number of clicks. *)
Lemma new_conversions_returns (clicks : Z) (cvr : Q) (s : rng) :
  clicks <> 0%Z -> 0.005 <= cvr <= 0.12 ->
  returns (new_conversions' clicks cvr) s
    (fun n _ => (0 <= n)%Z /\ ((0 <= clicks)%Z -> (n <= clicks)%Z)).
Proof.
  intros Hc [Hlo Hhi]. unfold new_conversions.
  cmp (cvr * inject_Z clicks) 0.15.
  - unfold returns, bind, random, ret. destruct (np_random s) as [u s1].
    destruct (Qltb u _); split; lia.
  - assert (Hpos : (0 < clicks)%Z).
    { destruct (Z_lt_le_dec 0 clicks) as [H|H]; [exact H|exfalso].
      assert (inject_Z clicks <= 0).
      { change 0 with (inject_Z 0). rewrite <- Zle_Qle. exact H. }
      nra. }
    unfold returns, binomial.
    replace (clicks <? 0)%Z with false by (symmetry; apply Z.ltb_ge; lia).
    replace (Qltb cvr 0) with false by (symmetry; apply Qltb_false; lra).
    replace (Qgtb cvr 1) with false by (symmetry; apply Qltb_false; lra).
    simpl. pose proof (binomial_range clicks cvr s) as H.
    destruct (np_binomial clicks cvr s) as [n s1]. simpl in H.
    assert (0 <= n <= clicks)%Z by (apply H; [lia | split; lra]).
    split; lia.
Qed.

(** Lines 422-437 never raise, and a positive count is paid a positive
    revenue per conversion. *)
Lemma total_revenue_returns (row : Row) (n : Z) (s : rng) :
  returns (total_revenue' row n) s
    (fun p _ => ((0 < n)%Z -> 0 < snd p) /\
                fst p = if (n >? 0)%Z then inject_Z n * snd p else 0).
Proof.
  unfold total_revenue. destruct (n >? 0)%Z eqn:En.
  - destruct (revenue_tier_found (Spent row) (Clicks row))
      as (low & high & Hfound & Hlow & Hle).
    apply returns_bind. eapply returns_lift; [exact Hfound|].
    unfold returns, bind, uniform, ret.
    pose proof (uniform_range low high s Hle) as [Hb _].
    destruct (np_uniform low high s) as [base_revenue s1]. cbn [fst snd] in *.
    split; [|reflexivity]. intros _.
    apply Qmult_lt_0_compat; [lra | apply age_revenue_mult_pos].
  - apply returns_ret. cbn [fst snd]. split; [lia | reflexivity].
Qed.

(** Lines 440-446 never raise; the approved count is the truncated
    product of the count and a rate in [0.70, 0.88]. *)
Lemma approved_returns (n : Z) (revenue_per_conv : Q) (s : rng) :
  returns (approved' n revenue_per_conv) s
    (fun p _ =>
       (((n <= 0)%Z /\ fst p = 0%Z) \/
        ((0 < n)%Z /\
         exists approval_rate, 0.70 <= approval_rate <= 0.88 /\
           fst p = py_max_int 0 (py_int (inject_Z n * approval_rate)))) /\
       snd p = if (fst p >? 0)%Z then inject_Z (fst p) * revenue_per_conv else 0).
Proof.
  unfold approved. destruct (n >? 0)%Z eqn:En.
  - unfold returns, bind, uniform, ret.
    pose proof (uniform_range 0.70 0.88 s) as Hr.
    destruct (np_uniform 0.70 0.88 s) as [approval_rate s1]. cbn [fst snd] in *.
    split; [|reflexivity]. right. split; [lia|].
    exists approval_rate. split; [apply Hr; discriminate | reflexivity].
  - apply returns_ret. cbn [fst snd]. split; [|reflexivity]. left. split; [lia | reflexivity].
Qed.

(** [calculate_realistic_metrics] never raises and establishes
    [metrics_ok]. *)
Lemma calculate_returns (row : Row) (s : rng) :
  returns (calculate' row) s (fun m _ => metrics_ok row m).
Proof.
  unfold calculate_realistic_metrics. destruct (Clicks row =? 0)%Z eqn:E0.
  - apply returns_ret. constructor; cbn [new_conv approved_conv total_rev
      approved_rev cvr_total cvr_approved].
    + lia.
    + auto.
    + left. split; reflexivity.
    + exists 0. repeat split. lia.
    + rewrite E0. split; reflexivity.
  - apply Z.eqb_neq in E0.
    apply returns_bind.
    eapply returns_weaken; [apply realistic_cvr_returns|].
    intros cvr s1 Hcvr. apply returns_bind.
    eapply returns_weaken; [apply (new_conversions_returns _ _ _ E0 Hcvr)|].
    intros n s2 [Hn0 Hnle]. apply returns_bind.
    eapply returns_weaken; [apply total_revenue_returns|].
    intros [tr rpc] s3 [Hrpc Htr]. cbn [fst snd] in *. apply returns_bind.
    eapply returns_weaken; [apply approved_returns|].
    intros [a ar] s4 [Ha Har]. cbn [fst snd] in *. apply returns_bind.
    eapply returns_lift; [apply py_div_int_ok, E0|]. apply returns_bind.
    eapply returns_lift; [apply py_div_int_ok, E0|]. apply returns_ret.
    constructor; cbn [new_conv approved_conv total_rev approved_rev
      cvr_total cvr_approved].
    + exact Hn0.
    + exact Hnle.
    + destruct Ha as [[Hle Ha]|[Hlt Ha]]; [left; split; [lia | exact Ha] | right; auto].
    + exists rpc. auto.
    + apply Z.eqb_neq in E0. rewrite E0. split; reflexivity.
Qed.

(** The loop body never raises and establishes [row_ok]. *)
Lemma fix_row_returns (row : Row) (s : rng) :
  returns (fix_row' row) s (fun row' _ => row_ok row row').
Proof.
  unfold fix_row. apply returns_bind.
  eapply returns_weaken; [apply calculate_returns|].
  intros [n a tr ar ct ca] s1 Hm. cbn [new_conv approved_conv total_rev approved_rev
    cvr_total cvr_approved].
  apply returns_bind.
  assert (Hcpa : forall k (s' : rng), returns
            (if (k >? 0)%Z then lift (py_div (Spent row) (inject_Z k)) else ret 0) s'
            (fun c s'' => s'' = s' /\
               c = if (k >? 0)%Z then Spent row / inject_Z k else 0)).
  { intros k s'. destruct (k >? 0)%Z eqn:E.
    - eapply returns_lift; [apply py_div_int_ok; lia | auto].
    - apply returns_ret. auto. }
  eapply returns_weaken; [apply Hcpa|]. intros cpa_t s2 [-> ->].
  apply returns_bind.
  eapply returns_weaken; [apply Hcpa|]. intros cpa_a s2 [-> ->].
  apply returns_bind.
  assert (Hroas : returns
            (if Qgtb (Spent row) 0 then
               rt <- lift (py_div tr (Spent row)) ;;
               ra <- lift (py_div ar (Spent row)) ;;
               ret (rt, ra)
             else ret (0, 0)) s1
            (fun p s' => s' = s1 /\
               p = if Qgtb (Spent row) 0
                   then (tr / Spent row, ar / Spent row) else (0, 0))).
  { destruct (Qgtb (Spent row) 0) eqn:E.
    - apply Qltb_true in E.
      assert (Hnz : ~ Spent row == 0) by (intro Hz; rewrite Hz in E; discriminate).
      apply returns_bind. eapply returns_lift; [apply py_div_ok, Hnz|].
      apply returns_bind. eapply returns_lift; [apply py_div_ok, Hnz|].
      apply returns_ret. auto.
    - apply returns_ret. auto. }
  eapply returns_weaken; [apply Hroas|]. intros p s2 [-> ->].
  destruct (Qgtb (Spent row) 0) eqn:E;
    apply returns_ret; constructor; cbn; try rewrite E; try reflexivity; exact Hm.
Qed.

(** The loop never raises and relates the tables row by row. *)
Lemma fix_rows_returns (df : list Row) (s : rng) :
  returns (fix_rows' df) s (fun out _ => Forall2 row_ok df out).
Proof.
  revert s. induction df as [|row rest IH]; intros s.
  - apply returns_ret. constructor.
  - cbn [fix_rows]. apply returns_bind.
    eapply returns_weaken; [apply fix_row_returns|]. intros row' s1 Hrow.
    apply returns_bind.
    eapply returns_weaken; [apply IH|]. intros rest' s2 Hrest.
    apply returns_ret. constructor; assumption.
Qed.

Lemma fix_data_returns (df : list Row) (s : rng) :
  returns (fix_data' df) s (fun out _ => Forall2 row_ok df out).
Proof.
  unfold fix_data_comprehensive. apply returns_bind.
  unfold returns at 1, seed. apply fix_rows_returns.
Qed.

(** Every record written by the pipeline satisfies what [row_ok]
    implies for all inputs. *)
Lemma fix_data_Forall (P : Row -> Prop) (df : list Row) (s : rng) :
  (forall row row', In row df -> row_ok row row' -> P row') ->
  exists out s', fix_data' df s = Ok (out, s') /\
                 List.length out = List.length df /\ Forall P out.
Proof.
  intros HP. destruct (returns_inv _ _ _ (fix_data_returns df s)) as (out & s' & E & H).
  exists out, s'. split; [exact E|]. split.
  - symmetry. eapply Forall2_length, H.
  - clear E. induction H as [|row row' df out Hrow _ IH]; constructor.
    + apply (HP row); [left; reflexivity | exact Hrow].
    + apply IH. intros r r' Hin. apply HP. right. exact Hin.
Qed.

(** *** Properties of every record written *)

(** C1. No record written by the pipeline has [ROAS_Total > 5] together
    with [Total_Conversion = 0] (its [ROAS_Total] is then 0), so the
    count reported by [compare_before_after] is 0, for every table and
    stream state. *)
Theorem no_high_roas_without_conversion (df : list Row) (s : rng) :
  exists out s',
    fix_data' df s = Ok (out, s') /\
    Forall (fun r => ~ (ROAS_Total r > 5 /\ Total_Conversion r = 0%Z)) out /\
    Forall (fun r => Total_Conversion r = 0%Z -> ROAS_Total r == 0) out /\
    high_roas_zero_conv out = 0%nat.
Proof.
  destruct (fix_data_Forall
              (fun r => Total_Conversion r = 0%Z -> ROAS_Total r == 0) df s)
    as (out & s' & E & _ & H).
  { intros row row' _. apply row_ok_roas_zero. }
  exists out, s'. split; [exact E|]. split; [|split; [exact H|]].
  - eapply Forall_impl; [|exact H]. intros r Hr [Hgt Hz].
    rewrite (Hr Hz) in Hgt. discriminate.
  - unfold high_roas_zero_conv. rewrite filter_nil_Forall; [reflexivity|].
    eapply Forall_impl; [|exact H]. intros r Hr. cbv beta.
    destruct (Total_Conversion r =? 0)%Z eqn:Ez; [|apply andb_false_r].
    apply Z.eqb_eq in Ez. rewrite andb_true_r.
    apply Qltb_false. rewrite (Hr Ez). discriminate.
Qed.

(** C2. For a table whose click counts are non-negative, every record
    written satisfies [0 <= Approved_Conversion <= Total_Conversion <=
    Clicks]; the approved count is 0 or the truncation of
    [Total_Conversion] times a rate in [0.70, 0.88]. *)
Theorem funnel_invariant (df : list Row) (s : rng) :
  Forall (fun r => (0 <= Clicks r)%Z) df ->
  exists out s',
    fix_data' df s = Ok (out, s') /\
    Forall (fun r =>
              (0 <= Approved_Conversion r <= Total_Conversion r)%Z /\
              (Total_Conversion r <= Clicks r)%Z /\
              (Approved_Conversion r = 0%Z \/
               exists approval_rate, 0.70 <= approval_rate <= 0.88 /\
                 Approved_Conversion r =
                   py_int (inject_Z (Total_Conversion r) * approval_rate))) out.
Proof.
  intros Hdf.
  destruct (fix_data_Forall
              (fun r =>
                 (0 <= Approved_Conversion r <= Total_Conversion r)%Z /\
                 (Total_Conversion r <= Clicks r)%Z /\
                 (Approved_Conversion r = 0%Z \/
                  exists approval_rate, 0.70 <= approval_rate <= 0.88 /\
                    Approved_Conversion r =
                      py_int (inject_Z (Total_Conversion r) * approval_rate))) df s)
    as (out & s' & E & _ & H); [|exists out, s'; auto].
  intros row row' Hin Hrow.
  destruct (metrics_ok_approved _ _ (metrics _ _ Hrow)) as (Hb & _ & _ & Hrate).
  cbn in Hb, Hrate. split; [exact Hb|]. split; [|exact Hrate].
  rewrite (keeps_clicks _ _ Hrow).
  apply (conv_le_clicks _ _ (metrics _ _ Hrow)).
  rewrite Forall_forall in Hdf. apply Hdf, Hin.
Qed.

(** C3. In every record written, [Revenue_Total] is zero exactly when
    [Total_Conversion] is, and [Revenue_Approved] is zero exactly when
    [Approved_Conversion] is. *)
Theorem revenue_zero_iff_no_conversion (df : list Row) (s : rng) :
  exists out s',
    fix_data' df s = Ok (out, s') /\
    Forall (fun r =>
              (Revenue_Total r == 0 <-> Total_Conversion r = 0%Z) /\
              (Revenue_Approved r == 0 <-> Approved_Conversion r = 0%Z)) out.
Proof.
  destruct (fix_data_Forall
              (fun r =>
                 (Revenue_Total r == 0 <-> Total_Conversion r = 0%Z) /\
                 (Revenue_Approved r == 0 <-> Approved_Conversion r = 0%Z)) df s)
    as (out & s' & E & _ & H); [|exists out, s'; auto].
  intros row row' _ Hrow.
  destruct (metrics_ok_revenue _ _ (metrics _ _ Hrow)) as (Ht & Ha & _).
  split; [exact Ht | exact Ha].
Qed.

(** C4. A record with [Clicks = 0] gets zero in all ten synthesized
    columns, whatever its other columns hold, and the stream state is
    left as it was. *)
Theorem zero_clicks_all_zero (row : Row) (s : rng) :
  Clicks row = 0%Z ->
  exists row',
    fix_row' row s = Ok (row', s) /\
    Total_Conversion row' = 0%Z /\ Approved_Conversion row' = 0%Z /\
    Revenue_Total row' == 0 /\ Revenue_Approved row' == 0 /\
    CVR_Total row' == 0 /\ CVR_Approved row' == 0 /\
    CPA_Total row' == 0 /\ CPA_Approved row' == 0 /\
    ROAS_Total row' == 0 /\ ROAS_Approved row' == 0.
Proof.
  intros Hc. unfold fix_row, calculate_realistic_metrics.
  rewrite Hc. unfold bind at 1. cbn [Z.eqb ret new_conv approved_conv total_rev
    approved_rev cvr_total cvr_approved].
  unfold bind, ret. cbn [Z.gtb Z.compare].
  destruct (Qgtb (Spent row) 0) eqn:E.
  - apply Qltb_true in E.
    assert (Hnz : ~ Spent row == 0) by (intro Hz; rewrite Hz in E; discriminate).
    unfold lift. rewrite (py_div_ok 0 (Spent row) Hnz).
    eexists. split; [reflexivity|]. cbn.
    repeat (split; [reflexivity|]). unfold Qdiv. split; apply Qmult_0_l.
  - eexists. split; [reflexivity|]. cbn. repeat (split; [reflexivity|]). reflexivity.
Qed.

(** C5. The pipeline never raises, and in every record written the four
    ratios are the guarded quotients: [CPA_Total] is [Spent /
    Total_Conversion] when [Total_Conversion > 0] and 0 otherwise,
    [CPA_Approved] likewise from [Approved_Conversion]; [ROAS_Total] is
    [Revenue_Total / Spent] when [Spent > 0] and 0 otherwise,
    [ROAS_Approved] likewise from [Revenue_Approved]. *)
Theorem ratios_zero_guarded (df : list Row) (s : rng) :
  exists out s',
    fix_data' df s = Ok (out, s') /\
    Forall (fun r =>
              CPA_Total r = (if (Total_Conversion r >? 0)%Z
                             then Spent r / inject_Z (Total_Conversion r) else 0) /\
              CPA_Approved r = (if (Approved_Conversion r >? 0)%Z
                                then Spent r / inject_Z (Approved_Conversion r) else 0) /\
              ROAS_Total r = (if Qgtb (Spent r) 0
                              then Revenue_Total r / Spent r else 0) /\
              ROAS_Approved r = (if Qgtb (Spent r) 0
                                 then Revenue_Approved r / Spent r else 0)) out.
Proof.
  destruct (fix_data_Forall
    (fun r =>
       CPA_Total r = (if (Total_Conversion r >? 0)%Z
                      then Spent r / inject_Z (Total_Conversion r) else 0) /\
       CPA_Approved r = (if (Approved_Conversion r >? 0)%Z
                         then Spent r / inject_Z (Approved_Conversion r) else 0) /\
       ROAS_Total r = (if Qgtb (Spent r) 0
                       then Revenue_Total r / Spent r else 0) /\
       ROAS_Approved r = (if Qgtb (Spent r) 0
                          then Revenue_Approved r / Spent r else 0)) df s)
    as (out & s' & E & _ & H); [|exists out, s'; auto].
  intros row row' _ Hrow. rewrite (keeps_spent _ _ Hrow).
  destruct Hrow. auto.
Qed.

(** C6. For a record with [1 <= Clicks <= 3] the rate of lines 393-413
    is the product base x gender x quality x variance, with the variance
    drawn from the range 0.6-1.5, clamped into [0.005, 0.12]; the bounds
    hold for every value the draw may take. *)
Theorem small_sample_cvr_clamped (row : Row) (s : rng) :
  (1 <= Clicks row <= 3)%Z ->
  exists quality_adj cvr,
    let variance := fst (np_uniform 0.6 1.5 s) in
    realistic_cvr' row s = Ok (cvr, snd (np_uniform 0.6 1.5 s)) /\
    cvr = py_max 0.005
            (py_min 0.12 (dict_get age_cvr (age row) 0.028 *
                          dict_get gender_adj (gender row) 1.0 *
                          quality_adj * variance)) /\
    (quality_adj = 1.2 \/ quality_adj = 0.8 \/ quality_adj = 1.0) /\
    0.005 <= cvr <= 0.12.
Proof.
  intros [H1 H3]. unfold realistic_cvr.
  assert (Hctr : exists ctr,
             (if (Impressions row >? 0)%Z
              then lift (py_div (inject_Z (Clicks row)) (inject_Z (Impressions row)))
              else ret 0) s = Ok (ctr, s)).
  { destruct (Impressions row >? 0)%Z eqn:E.
    - eexists. unfold lift. rewrite py_div_int_ok by lia. reflexivity.
    - eexists. reflexivity. }
  destruct Hctr as [ctr Hctr]. unfold bind at 1. rewrite Hctr.
  replace (Clicks row <=? 3)%Z with true by (symmetry; apply Z.leb_le; lia).
  unfold bind, uniform, ret. destruct (np_uniform 0.6 1.5 s) as [variance s1].
  do 2 eexists. cbv zeta. cbn [fst snd].
  split; [reflexivity|]. split; [reflexivity|]. split.
  - destruct (Qgtb ctr 0.0003); [|destruct (Qltb ctr 0.0001)]; auto.
  - apply clamp_bounds. discriminate.
Qed.

(** The rate and the count behind the metrics of a record with clicks. *)
Lemma calculate_inv (row : Row) (s s' : rng) (m : Metrics) :
  Clicks row <> 0%Z ->
  calculate' row s = Ok (m, s') ->
  exists cvr s1 s2,
    realistic_cvr' row s = Ok (cvr, s1) /\
    new_conversions' (Clicks row) cvr s1 = Ok (new_conv m, s2).
Proof.
  intros Hc E. unfold calculate_realistic_metrics in E.
  apply Z.eqb_neq in Hc. rewrite Hc in E.
  apply bind_inv in E as (cvr & s1 & Ecvr & E).
  apply bind_inv in E as (n & s2 & En & E).
  apply bind_inv in E as ([tr rpc] & s3 & _ & E).
  apply bind_inv in E as ([a ar] & s4 & _ & E).
  apply bind_inv in E as (ct & s5 & _ & E).
  apply bind_inv in E as (ca & s6 & _ & E).
  injection E as <- _. exists cvr, s1, s2. auto.
Qed.

Lemma fix_row_inv (row row' : Row) (s s' : rng) :
  fix_row' row s = Ok (row', s') ->
  exists m s1, calculate' row s = Ok (m, s1) /\ Total_Conversion row' = new_conv m.
Proof.
  intros E. unfold fix_row in E.
  apply bind_inv in E as (m & s1 & Em & E).
  apply bind_inv in E as (ct & s2 & _ & E).
  apply bind_inv in E as (ca & s3 & _ & E).
  apply bind_inv in E as ([rt ra] & s4 & _ & E).
  injection E as <- _. exists m, s1. auto.
Qed.

(** C7. For a record with [Clicks > 0], with [cvr] the rate of lines
    393-413: when [cvr * Clicks < 0.15] the count is one Bernoulli trial
    of success probability [cvr * Clicks] (a number strictly between 0
    and 0.15), hence 0 or 1; otherwise it is the Binomial draw with
    [n = Clicks] and [p = cvr]. *)
Theorem conversion_draw_regimes (row : Row) (s : rng) :
  (0 < Clicks row)%Z ->
  exists cvr s1 m s',
    realistic_cvr' row s = Ok (cvr, s1) /\
    calculate' row s = Ok (m, s') /\
    let expected := cvr * inject_Z (Clicks row) in
    (expected < 0.15 ->
       0 < expected < 0.15 /\
       new_conv m = (if Qltb (fst (np_random s1)) expected then 1%Z else 0%Z) /\
       (new_conv m = 0%Z \/ new_conv m = 1%Z)) /\
    (~ expected < 0.15 ->
       new_conv m = fst (np_binomial (Clicks row) cvr s1)).
Proof.
  intros Hc.
  destruct (returns_inv _ _ _ (calculate_returns row s)) as (m & s' & Em & _).
  destruct (calculate_inv row s s' m) as (cvr & s1 & s2 & Ecvr & En);
    [lia | exact Em |].
  exists cvr, s1, m, s'. split; [exact Ecvr|]. split; [exact Em|].
  pose proof (realistic_cvr_returns row s) as Hcvr.
  unfold returns in Hcvr. rewrite Ecvr in Hcvr.
  pose proof (inject_Z_pos _ Hc) as Hq.
  cbv zeta. unfold new_conversions in En.
  cmp (cvr * inject_Z (Clicks row)) 0.15.
  - unfold bind, random, ret in En. destruct (np_random s1) as [u s3].
    injection En as En _. cbn [fst]. split; [|intros H; contradiction].
    intros _. split; [split; [nra | exact E]|]. split; [auto|].
    rewrite <- En. destruct (Qltb u _); auto.
  - split; [intros H; exfalso; lra|]. intros _.
    unfold binomial in En.
    destruct ((Clicks row <? 0)%Z || Qltb cvr 0 || Qgtb cvr 1); [discriminate|].
    destruct (np_binomial (Clicks row) cvr s1) as [n s3].
    injection En as En _. auto.
Qed.

(** The rate of the scenario row: the 35-39 base rate, the F
    adjustment, the quality boost of a 2% click-through ratio and a
    variance from the >8-click range, clamped at 0.06. *)
Lemma scenario_cvr (row : Row) (s : rng) :
  age row = "35-39"%string -> gender row = "F"%string ->
  Impressions row = 1000%Z -> Clicks row = 20%Z ->
  realistic_cvr' row s =
    Ok (py_max 0.005 (py_min 0.06 (0.035 * 1.12 * 1.2 * fst (np_uniform 0.9 1.1 s))),
        snd (np_uniform 0.9 1.1 s)).
Proof.
  intros Ha Hg Hi Hc. unfold realistic_cvr. rewrite Ha, Hg, Hi, Hc.
  change (1000 >? 0)%Z with true. change (20 <=? 3)%Z with false.
  change (20 <=? 8)%Z with false. cbv iota.
  change (py_div (inject_Z 20) (inject_Z 1000))
    with (Ok (A:=Q) (inject_Z 20 / inject_Z 1000)).
  unfold bind, lift, uniform, ret.
  change (Qgtb (inject_Z 20 / inject_Z 1000) 0.0003) with true. cbv iota.
  change (dict_get age_cvr "35-39" 0.028) with 0.035.
  change (dict_get gender_adj "F" 1.0) with 1.12.
  destruct (np_uniform 0.9 1.1 s) as [variance s1]. reflexivity.
Qed.

(** C8. For the row [{age: 35-39, gender: F, Impressions: 1000,
    Clicks: 20, Spent: 60}] and every stream state: the product tier is
    standard or premium (it is premium), the count is the Binomial draw
    with [n = 20] and [p] the record's rate, and a positive count gives
    [CPA_Total = 60 / Total_Conversion]. *)
Theorem scenario_end_to_end
    (tc ac : Z) (rt ra cvt cva cpt cpa rot roa : Q) (s : rng) :
  let row := scenario_row tc ac rt ra cvt cva cpt cpa rot roa in
  let tier := get_product_tier (Spent row) (Clicks row) in
  (tier = "standard"%string \/ tier = "premium"%string) /\
  tier = "premium"%string /\
  exists cvr s1 row' s',
    realistic_cvr' row s = Ok (cvr, s1) /\
    ~ cvr * inject_Z 20 < 0.15 /\
    new_conversions' 20 cvr s1 = Ok (np_binomial 20 cvr s1) /\
    fix_row' row s = Ok (row', s') /\
    Total_Conversion row' = fst (np_binomial 20 cvr s1) /\
    ((0 < Total_Conversion row')%Z ->
     CPA_Total row' = 60 / inject_Z (Total_Conversion row')).
Proof.
  intros row tier. split; [right; reflexivity|]. split; [reflexivity|].
  pose proof (scenario_cvr row s eq_refl eq_refl eq_refl eq_refl) as Ecvr.
  pose proof (uniform_range 0.9 1.1 s) as Hv.
  destruct (np_uniform 0.9 1.1 s) as [variance s1]. cbn [fst snd] in *.
  assert (Hv' : 0.9 <= variance <= 1.1) by (apply Hv; discriminate). clear Hv.
  set (cvr := py_max 0.005 (py_min 0.06 (0.035 * 1.12 * 1.2 * variance))) in *.
  assert (Hcvr : 0.04 <= cvr <= 0.06).
  { unfold cvr, py_max, py_min, Qgtb.
    cmp (0.035 * 1.12 * 1.2 * variance) 0.06;
      match goal with |- context [Qltb ?a ?b] => cmp a b end; lra. }
  assert (Hexp : 0.15 <= cvr * inject_Z 20).
  { change (inject_Z 20) with 20. lra. }
  assert (Hdraw : new_conversions' 20 cvr s1 = Ok (np_binomial 20 cvr s1)).
  { unfold new_conversions.
    replace (Qltb (cvr * inject_Z 20) 0.15) with false
      by (symmetry; apply Qltb_false; exact Hexp).
    unfold binomial.
    replace (Qltb cvr 0) with false by (symmetry; apply Qltb_false; lra).
    replace (Qgtb cvr 1) with false by (symmetry; apply Qltb_false; lra).
    reflexivity. }
  destruct (returns_inv _ _ _ (fix_row_returns row s)) as (row' & s' & Erow & Hok).
  destruct (fix_row_inv _ _ _ _ Erow) as (m & s2 & Em & Htot).
  destruct (calculate_inv row s s2 m) as (cvr' & s1' & s3 & Ecvr' & En);
    [discriminate | exact Em |].
  rewrite Ecvr in Ecvr'. injection Ecvr' as <- <-.
  change (Clicks row) with 20%Z in En. rewrite Hdraw in En.
  exists cvr, s1, row', s'. split; [exact Ecvr|].
  split; [intros H; lra|]. split; [exact Hdraw|]. split; [exact Erow|].
  assert (Htot' : Total_Conversion row' = fst (np_binomial 20 cvr s1)).
  { rewrite Htot. destruct (np_binomial 20 cvr s1). injection En as -> _. reflexivity. }
  split; [exact Htot'|]. intros Hpos.
  rewrite (cpa_total_eq _ _ Hok).
  replace (Total_Conversion row' >? 0)%Z with true by (symmetry; lia).
  reflexivity.
Qed.

(** The loop threads one stream through the table: the records after a
    prefix are synthesized from the state the prefix leaves. *)
Lemma fix_rows_app (df1 df2 : list Row) (s : rng) :
  fix_rows' (df1 ++ df2) s =
    (out1 <- fix_rows' df1 ;; out2 <- fix_rows' df2 ;; ret (out1 ++ out2)) s.
Proof.
  revert s. induction df1 as [|row rest IH]; intros s.
  - cbn [app fix_rows]. unfold bind, ret.
    destruct (fix_rows' df2 s) as [[out2 s2]|e]; reflexivity.
  - cbn [app fix_rows]. unfold bind, ret in *.
    destruct (fix_row' row s) as [[row' s1]|e]; [|reflexivity].
    rewrite IH.
    destruct (fix_rows' rest s1) as [[out1 s2]|e]; [|reflexivity].
    destruct (fix_rows' df2 s2) as [[out2 s3]|e]; reflexivity.
Qed.

(** C9. The output of the pipeline does not depend on the state the
    stream is in when the run starts: the stream is reseeded with 42
    first (line 455), and every draw of the loop is made on the stream
    that starts there. *)
Theorem deterministic_given_seed (df : list Row) (s1 s2 : rng) :
  fix_data' df s1 = fix_data' df s2 /\
  fix_data' df s1 = fix_rows' df (np_seed 42).
Proof.
  unfold fix_data_comprehensive, bind, seed. split; reflexivity.
Qed.

(** C10. In every record written, a single conversion is never
    approved: [Total_Conversion = 1] gives [Approved_Conversion = 0]
    and [Revenue_Approved = 0] although [Revenue_Total > 0]; in general
    [Approved_Conversion <= floor (0.88 * Total_Conversion)]. *)
Theorem single_conversion_never_approved (df : list Row) (s : rng) :
  exists out s',
    fix_data' df s = Ok (out, s') /\
    Forall (fun r =>
              (Total_Conversion r = 1%Z ->
               Approved_Conversion r = 0%Z /\ Revenue_Approved r = 0 /\
               0 < Revenue_Total r) /\
              (Approved_Conversion r <=
                 Qfloor (0.88 * inject_Z (Total_Conversion r)))%Z) out.
Proof.
  destruct (fix_data_Forall
    (fun r =>
       (Total_Conversion r = 1%Z ->
        Approved_Conversion r = 0%Z /\ Revenue_Approved r = 0 /\
        0 < Revenue_Total r) /\
       (Approved_Conversion r <=
          Qfloor (0.88 * inject_Z (Total_Conversion r)))%Z) df s)
    as (out & s' & E & _ & H); [|exists out, s'; auto].
  intros row row' _ Hrow.
  destruct (metrics_ok_approved _ _ (metrics _ _ Hrow)) as (_ & Hfl & H1 & _).
  destruct (metrics_ok_revenue _ _ (metrics _ _ Hrow)) as (_ & _ & Hpos & Hz).
  cbn in Hfl, H1, Hpos, Hz. split; [|exact Hfl].
  intros E1. split; [apply H1, E1|]. split; [apply Hz, H1, E1 | apply Hpos; lia].
Qed.

End SynthesizerFacts.

(** ** The concrete stream is within NumPy's ranges *)

Lemma lcg_unit_draw_range (s : Z) : 0 <= Lcg.unit_draw s < 1.
Proof.
  pose proof (Z.mod_pos_bound s Lcg.modulus eq_refl) as H.
  unfold Lcg.unit_draw, Qle, Qlt. cbn [Qnum Qden].
  change (Z.pos 2147483648) with Lcg.modulus. lia.
Qed.

Lemma lcg_uniform_range (low high : Q) (s : Z) :
  low <= high -> low <= fst (Lcg.uniform low high s) <= high.
Proof.
  intros H. pose proof (lcg_unit_draw_range s) as [H0 H1].
  unfold Lcg.uniform. cbn [fst]. split; nra.
Qed.

Lemma lcg_trials_range (n : nat) (p : Q) (s : Z) :
  (0 <= fst (Lcg.trials n p s) <= Z.of_nat n)%Z.
Proof.
  revert s. induction n as [|n IH]; intros s.
  - cbn. lia.
  - cbn [Lcg.trials]. specialize (IH (Lcg.next s)).
    destruct (Lcg.trials n p (Lcg.next s)) as [k s']. cbn [fst] in *.
    rewrite Nat2Z.inj_succ. destruct (Qltb (Lcg.unit_draw s) p); lia.
Qed.

Lemma lcg_binomial_range (n : Z) (p : Q) (s : Z) :
  (0 <= n)%Z -> 0 <= p <= 1 -> (0 <= fst (Lcg.binomial n p s) <= n)%Z.
Proof.
  intros Hn _. unfold Lcg.binomial.
  pose proof (lcg_trials_range (Z.to_nat n) p s) as H.
  rewrite Z2Nat.id in H by exact Hn. exact H.
Qed.

(** ** Runs on the sample table *)

Example sample_run_counts :
  conversion_counts (lcg_fix_data_comprehensive sample_table 0%Z) =
    [(1, 0); (0, 0); (0, 0); (4, 2); (0, 0)]%Z.
Proof. vm_compute. reflexivity. Qed.

(** The same records in reverse table order meet other draws: the 35-39
    record converts once in table order and three times in reverse. *)
Example sample_run_reversed_counts :
  conversion_counts (lcg_fix_data_comprehensive (List.rev sample_table) 0%Z) =
    [(0, 0); (2, 1); (0, 0); (0, 0); (3, 2)]%Z.
Proof. vm_compute. reflexivity. Qed.

(** Without the reseeding of line 455 the loop depends on the state it
    starts from. *)
Example unseeded_loop_depends_on_state :
  conversion_counts (fix_rows Lcg.uniform Lcg.random Lcg.binomial sample_table 0%Z) <>
  conversion_counts (fix_rows Lcg.uniform Lcg.random Lcg.binomial sample_table 1%Z).
Proof. vm_compute. discriminate. Qed.

(** ** The theorems at the concrete stream *)

Lemma no_high_roas_without_conversion_witness :
  exists out s',
    lcg_fix_data_comprehensive sample_table 0%Z = Ok (out, s') /\
    Forall (fun r => ~ (ROAS_Total r > 5 /\ Total_Conversion r = 0%Z)) out /\
    Forall (fun r => Total_Conversion r = 0%Z -> ROAS_Total r == 0) out /\
    high_roas_zero_conv out = 0%nat.
Proof.
  exact (no_high_roas_without_conversion Z Lcg.uniform Lcg.random Lcg.binomial
           Lcg.seed lcg_uniform_range lcg_binomial_range sample_table 0%Z).
Defined.

Lemma funnel_invariant_witness :
  Forall (fun r => (0 <= Clicks r)%Z) sample_table /\
  exists out s',
    lcg_fix_data_comprehensive sample_table 0%Z = Ok (out, s') /\
    Forall (fun r =>
              (0 <= Approved_Conversion r <= Total_Conversion r)%Z /\
              (Total_Conversion r <= Clicks r)%Z /\
              (Approved_Conversion r = 0%Z \/
               exists approval_rate, 0.70 <= approval_rate <= 0.88 /\
                 Approved_Conversion r =
                   py_int (inject_Z (Total_Conversion r) * approval_rate))) out.
Proof.
  assert (H : Forall (fun r => (0 <= Clicks r)%Z) sample_table)
    by (repeat constructor; discriminate).
  split; [exact H|].
  exact (funnel_invariant Z Lcg.uniform Lcg.random Lcg.binomial Lcg.seed
           lcg_uniform_range lcg_binomial_range sample_table 0%Z H).
Defined.

Lemma revenue_zero_iff_no_conversion_witness :
  exists out s',
    lcg_fix_data_comprehensive sample_table 0%Z = Ok (out, s') /\
    Forall (fun r =>
              (Revenue_Total r == 0 <-> Total_Conversion r = 0%Z) /\
              (Revenue_Approved r == 0 <-> Approved_Conversion r = 0%Z)) out.
Proof.
  exact (revenue_zero_iff_no_conversion Z Lcg.uniform Lcg.random Lcg.binomial
           Lcg.seed lcg_uniform_range lcg_binomial_range sample_table 0%Z).
Defined.

Lemma zero_clicks_all_zero_witness :
  let row := mkRow "45-49" "M" 4133 0 1.5 3 1 300 100 0 0 0.5 1.5 200 (200 # 3) in
  Clicks row = 0%Z /\
  exists row',
    lcg_fix_row row 5%Z = Ok (row', 5%Z) /\
    Total_Conversion row' = 0%Z /\ Approved_Conversion row' = 0%Z /\
    Revenue_Total row' == 0 /\ Revenue_Approved row' == 0 /\
    CVR_Total row' == 0 /\ CVR_Approved row' == 0 /\
    CPA_Total row' == 0 /\ CPA_Approved row' == 0 /\
    ROAS_Total row' == 0 /\ ROAS_Approved row' == 0.
Proof.
  intros row. split; [reflexivity|].
  exact (zero_clicks_all_zero Z Lcg.uniform Lcg.random Lcg.binomial row 5%Z eq_refl).
Defined.

Lemma ratios_zero_guarded_witness :
  exists out s',
    lcg_fix_data_comprehensive sample_table 0%Z = Ok (out, s') /\
    Forall (fun r =>
              CPA_Total r = (if (Total_Conversion r >? 0)%Z
                             then Spent r / inject_Z (Total_Conversion r) else 0) /\
              CPA_Approved r = (if (Approved_Conversion r >? 0)%Z
                                then Spent r / inject_Z (Approved_Conversion r) else 0) /\
              ROAS_Total r = (if Qgtb (Spent r) 0
                              then Revenue_Total r / Spent r else 0) /\
              ROAS_Approved r = (if Qgtb (Spent r) 0
                                 then Revenue_Approved r / Spent r else 0)) out.
Proof.
  exact (ratios_zero_guarded Z Lcg.uniform Lcg.random Lcg.binomial Lcg.seed
           lcg_uniform_range lcg_binomial_range sample_table 0%Z).
Defined.

Lemma small_sample_cvr_clamped_witness :
  let row := sample_row "30-34" "M" 7350 1 1.43 in
  (1 <= Clicks row <= 3)%Z /\
  exists quality_adj cvr,
    let variance := fst (Lcg.uniform 0.6 1.5 9%Z) in
    realistic_cvr Lcg.uniform row 9%Z = Ok (cvr, snd (Lcg.uniform 0.6 1.5 9%Z)) /\
    cvr = py_max 0.005
            (py_min 0.12 (dict_get age_cvr (age row) 0.028 *
                          dict_get gender_adj (gender row) 1.0 *
                          quality_adj * variance)) /\
    (quality_adj = 1.2 \/ quality_adj = 0.8 \/ quality_adj = 1.0) /\
    0.005 <= cvr <= 0.12.
Proof.
  intros row.
  assert (H : (1 <= Clicks row <= 3)%Z) by (cbn; lia).
  split; [exact H|].
  exact (small_sample_cvr_clamped Z Lcg.uniform row 9%Z H).
Defined.

Lemma conversion_draw_regimes_witness :
  let row := sample_row "40-44" "F" 250000 60 100.34 in
  (0 < Clicks row)%Z /\
  exists cvr s1 m s',
    realistic_cvr Lcg.uniform row 0%Z = Ok (cvr, s1) /\
    calculate_realistic_metrics Lcg.uniform Lcg.random Lcg.binomial row 0%Z = Ok (m, s') /\
    let expected := cvr * inject_Z (Clicks row) in
    (expected < 0.15 ->
       0 < expected < 0.15 /\
       new_conv m = (if Qltb (fst (Lcg.random s1)) expected then 1%Z else 0%Z) /\
       (new_conv m = 0%Z \/ new_conv m = 1%Z)) /\
    (~ expected < 0.15 ->
       new_conv m = fst (Lcg.binomial (Clicks row) cvr s1)).
Proof.
  intros row.
  assert (H : (0 < Clicks row)%Z) by reflexivity.
  split; [exact H|].
  exact (conversion_draw_regimes Z Lcg.uniform Lcg.random Lcg.binomial
           lcg_uniform_range lcg_binomial_range row 0%Z H).
Defined.

Lemma scenario_end_to_end_witness :
  let row := scenario_row 2 1 500 250 0.1 0.05 30 60 (25 # 3) (25 # 6) in
  let tier := get_product_tier (Spent row) (Clicks row) in
  (tier = "standard"%string \/ tier = "premium"%string) /\
  tier = "premium"%string /\
  exists cvr s1 row' s',
    realistic_cvr Lcg.uniform row 0%Z = Ok (cvr, s1) /\
    ~ cvr * inject_Z 20 < 0.15 /\
    new_conversions Lcg.random Lcg.binomial 20 cvr s1 = Ok (Lcg.binomial 20 cvr s1) /\
    lcg_fix_row row 0%Z = Ok (row', s') /\
    Total_Conversion row' = fst (Lcg.binomial 20 cvr s1) /\
    ((0 < Total_Conversion row')%Z ->
     CPA_Total row' = 60 / inject_Z (Total_Conversion row')).
Proof.
  exact (scenario_end_to_end Z Lcg.uniform Lcg.random Lcg.binomial
           lcg_uniform_range lcg_binomial_range
           2%Z 1%Z 500 250 0.1 0.05 30 60 (25 # 3) (25 # 6) 0%Z).
Defined.

Lemma single_conversion_never_approved_witness :
  exists out s',
    lcg_fix_data_comprehensive sample_table 0%Z = Ok (out, s') /\
    Forall (fun r =>
              (Total_Conversion r = 1%Z ->
               Approved_Conversion r = 0%Z /\ Revenue_Approved r = 0 /\
               0 < Revenue_Total r) /\
              (Approved_Conversion r <=
                 Qfloor (0.88 * inject_Z (Total_Conversion r)))%Z) out.
Proof.
  exact (single_conversion_never_approved Z Lcg.uniform Lcg.random Lcg.binomial
           Lcg.seed lcg_uniform_range lcg_binomial_range sample_table 0%Z).
Defined.

(** * Further properties of the synthesizer *)

Lemma returns_ok {S A} (m : M S A) (s s' : S) (a : A) (P : A -> S -> Prop) :
  returns m s P -> m s = Ok (a, s') -> P a s'.
Proof. unfold returns. intros H E. rewrite E in H. exact H. Qed.



Lemma inject_Z_ge (n k : Z) : (k <= n)%Z -> inject_Z k <= inject_Z n.
Proof. intros H. rewrite <- Zle_Qle. exact H. Qed.

Lemma Qdiv_le_pos (a b c : Q) : 0 < c -> a <= b -> a / c <= b / c.
Proof.
  intros Hc Hab. unfold Qdiv. apply Qmult_le_compat_r; [exact Hab|].
  apply Qlt_le_weak, Qinv_lt_0_compat, Hc.
Qed.


(** Approved revenue is priced like total revenue and never exceeds it. *)
Lemma metrics_ok_revenue_order (row : Row) (m : Metrics) :
  metrics_ok row m ->
  0 <= approved_rev m <= total_rev m /\
  approved_rev m * inject_Z (new_conv m) == total_rev m * inject_Z (approved_conv m).
Proof.
  intros Hm. destruct (metrics_ok_approved _ _ Hm) as ([Ha0 Han] & _).
  destruct Hm as [Hn0 _ _ (rpc & Hrpc & Htr & Har) _].
  rewrite Htr, Har. clear Htr Har.
  destruct (approved_conv m >? 0)%Z eqn:Ea.
  - assert (Hn : (0 < new_conv m)%Z) by lia.
    replace (new_conv m >? 0)%Z with true by (symmetry; lia).
    specialize (Hrpc Hn).
    assert (0 < inject_Z (approved_conv m)) by (apply inject_Z_pos; lia).
    pose proof (inject_Z_ge _ _ Han). split; [split; nra | ring].
  - assert (Hz : approved_conv m = 0%Z) by lia. rewrite Hz.
    destruct (new_conv m >? 0)%Z eqn:En.
    + assert (Hn : (0 < new_conv m)%Z) by lia. specialize (Hrpc Hn).
      pose proof (inject_Z_pos _ Hn). split; [split; nra | ring].
    + split; [split; lra | ring].
Qed.

Lemma revenue_conv_consistent_all (df : list Row) :
  Forall (fun r => (Revenue_Total r == 0 <-> Total_Conversion r = 0%Z) /\
                   ((0 < Total_Conversion r)%Z -> 0 < Revenue_Total r) /\
                   (0 <= Total_Conversion r)%Z) df ->
  revenue_conv_consistent df = List.length df.
Proof.
  unfold revenue_conv_consistent. intros H.
  enough (G : forall acc,
             fold_left
               (fun acc row =>
                  if (Total_Conversion row =? 0)%Z && Qeq_bool (Revenue_Total row) 0
                  then S acc
                  else if (Total_Conversion row >? 0)%Z && Qgtb (Revenue_Total row) 0
                       then S acc else acc) df acc = (acc + List.length df)%nat)
    by apply (G 0%nat).
  induction H as [|r df (Hiff & Hpos & Hnn) _ IH]; intros acc; cbn [fold_left List.length].
  - lia.
  - destruct (Total_Conversion r =? 0)%Z eqn:Ez.
    + apply Z.eqb_eq in Ez. apply Hiff in Ez.
      apply Qeq_bool_iff in Ez. rewrite Ez. cbn [andb]. rewrite IH. lia.
    + apply Z.eqb_neq in Ez. cbn [andb].
      replace (Total_Conversion r >? 0)%Z with true by (symmetry; lia).
      replace (Qgtb (Revenue_Total r) 0) with true
        by (symmetry; apply Qltb_true, Hpos; lia).
      cbn [andb]. rewrite IH. lia.
Qed.



Section SynthesizerMore.

Variable rng : Type.
Variable np_uniform : Q -> Q -> rng -> Q * rng.
Variable np_random : rng -> Q * rng.
Variable np_binomial : Z -> Q -> rng -> Z * rng.
Variable np_seed : Z -> rng.

Hypothesis uniform_range :
  forall low high s, low <= high ->
    low <= fst (np_uniform low high s) <= high.

Hypothesis binomial_range :
  forall n p s, (0 <= n)%Z -> 0 <= p <= 1 ->
    (0 <= fst (np_binomial n p s) <= n)%Z.

Local Abbreviation realistic_cvr' := (realistic_cvr np_uniform).
Local Abbreviation new_conversions' := (new_conversions np_random np_binomial).
Local Abbreviation total_revenue' := (total_revenue np_uniform).
Local Abbreviation calculate' := (calculate_realistic_metrics np_uniform np_random np_binomial).
Local Abbreviation fix_row' := (fix_row np_uniform np_random np_binomial).
Local Abbreviation fix_rows' := (fix_rows np_uniform np_random np_binomial).
Local Abbreviation fix_data' := (fix_data_comprehensive np_uniform np_random np_binomial np_seed).

(** Whatever holds of every record the loop body can return holds of
    the whole output table, row by row. *)
Lemma fix_rows_Forall2 (P : Row -> Row -> Prop) :
  (forall row s row' s', fix_row' row s = Ok (row', s') -> P row row') ->
  forall df s out s', fix_rows' df s = Ok (out, s') -> Forall2 P df out.
Proof.
  intros HP. induction df as [|row rest IH]; intros s out s' E.
  - injection E as <- _. constructor.
  - cbn [fix_rows] in E.
    apply bind_inv in E as (row' & s1 & Erow & E).
    apply bind_inv in E as (rest' & s2 & Erest & E).
    injection E as <- _. constructor; [eapply HP, Erow | eapply IH, Erest].
Qed.

Lemma fix_data_Forall2 (P : Row -> Row -> Prop) (df : list Row) (s : rng) :
  (forall row s row' s',
      fix_row' row s = Ok (row', s') -> row_ok row row' -> P row row') ->
  exists out s', fix_data' df s = Ok (out, s') /\ Forall2 P df out.
Proof.
  intros HP.
  destruct (returns_inv _ _ _
              (fix_data_returns rng np_uniform np_random np_binomial np_seed
                 uniform_range binomial_range df s)) as (out & s' & E & _).
  exists out, s'. split; [exact E|].
  unfold fix_data_comprehensive, bind, seed in E.
  eapply fix_rows_Forall2; [|exact E].
  intros row s0 row' s0' Erow. apply (HP row s0 row' s0' Erow).
  exact (returns_ok _ _ _ _ _
           (fix_row_returns rng np_uniform np_random np_binomial
              uniform_range binomial_range row s0) Erow).
Qed.

(** X1. For every record the rate of lines 393-413 lies between the
    floor 0.005 and the ceiling of its sample-size tier: 0.12 up to 3
    clicks, 0.08 up to 8 clicks, 0.06 above. *)
Theorem cvr_within_tier_ceiling (row : Row) (s : rng) :
  exists cvr s',
    realistic_cvr' row s = Ok (cvr, s') /\
    0.005 <= cvr <=
      (if (Clicks row <=? 3)%Z then 0.12
       else if (Clicks row <=? 8)%Z then 0.08 else 0.06).
Proof.
  unfold realistic_cvr.
  assert (Hctr : exists ctr,
             (if (Impressions row >? 0)%Z
              then lift (py_div (inject_Z (Clicks row)) (inject_Z (Impressions row)))
              else ret 0) s = Ok (ctr, s)).
  { destruct (Impressions row >? 0)%Z eqn:E.
    - eexists. unfold lift. rewrite py_div_int_ok by lia. reflexivity.
    - eexists. reflexivity. }
  destruct Hctr as [ctr Hctr]. unfold bind at 1. rewrite Hctr.
  destruct (Clicks row <=? 3)%Z; [|destruct (Clicks row <=? 8)%Z];
    unfold bind, uniform, ret;
    destruct (np_uniform _ _ s) as [variance s1];
    do 2 eexists; (split; [reflexivity|]); apply clamp_bounds; discriminate.
Qed.

(** Every call made for a record with clicks, in order. *)
Lemma calculate_inv_calls (row : Row) (s s' : rng) (m : Metrics) :
  Clicks row <> 0%Z ->
  calculate' row s = Ok (m, s') ->
  exists cvr s1 s2 rpc s3,
    realistic_cvr' row s = Ok (cvr, s1) /\
    new_conversions' (Clicks row) cvr s1 = Ok (new_conv m, s2) /\
    total_revenue' row (new_conv m) s2 = Ok ((total_rev m, rpc), s3) /\
    approved np_uniform (new_conv m) rpc s3 = Ok ((approved_conv m, approved_rev m), s').
Proof.
  intros Hc E. unfold calculate_realistic_metrics in E.
  apply Z.eqb_neq in Hc. rewrite Hc in E.
  apply bind_inv in E as (cvr & s1 & Ecvr & E).
  apply bind_inv in E as (n & s2 & En & E).
  apply bind_inv in E as ([tr rpc] & s3 & Er & E).
  apply bind_inv in E as ([a ar] & s4 & Ea & E).
  apply bind_inv in E as (ct & s5 & Ect & E).
  apply bind_inv in E as (ca & s6 & Eca & E).
  unfold lift in Ect, Eca.
  destruct (py_div _ _) in Ect; [|discriminate]. injection Ect as _ <-.
  destruct (py_div _ _) in Eca; [|discriminate]. injection Eca as _ <-.
  injection E as <- <-. exists cvr, s1, s2, rpc, s3. auto.
Qed.

(** The metrics a written record carries are those returned by
    [calculate_realistic_metrics]. *)
Lemma fix_row_inv_metrics (row row' : Row) (s s' : rng) :
  fix_row' row s = Ok (row', s') ->
  exists m,
    calculate' row s = Ok (m, s') /\
    Total_Conversion row' = new_conv m /\
    Approved_Conversion row' = approved_conv m /\
    Revenue_Total row' = total_rev m /\
    Revenue_Approved row' = approved_rev m.
Proof.
  intros E. unfold fix_row in E.
  apply bind_inv in E as (m & s1 & Em & E).
  apply bind_inv in E as (ct & s2 & Ect & E).
  apply bind_inv in E as (ca & s3 & Eca & E).
  apply bind_inv in E as ([rt ra] & s4 & Ero & E).
  assert (Hsame : forall (b : bool) (x : result Q) (t t' : rng) (v : Q),
             (if b then lift x else ret 0) t = Ok (v, t') -> t' = t).
  { intros b x t t' v. destruct b; unfold lift, ret.
    - destruct x; [|discriminate]. intros H. injection H as _ <-. reflexivity.
    - intros H. injection H as _ <-. reflexivity. }
  apply Hsame in Ect, Eca. subst s2 s3.
  assert (s4 = s1).
  { destruct (Qgtb (Spent row) 0).
    - apply bind_inv in Ero as (x & t & Ex & Ero).
      apply bind_inv in Ero as (y & t' & Ey & Ero).
      unfold lift in Ex, Ey.
      destruct (py_div _ _) in Ex; [|discriminate]. injection Ex as _ <-.
      destruct (py_div _ _) in Ey; [|discriminate]. injection Ey as _ <-.
      injection Ero as _ _ <-. reflexivity.
    - injection Ero as _ _ <-. reflexivity. }
  subst s4. injection E as <- <-. exists m. auto.
Qed.

(** X2. A record with exactly one click is always drawn by the
    Bernoulli trial (its rate is at most 0.12 < 0.15), and its
    conversion, if any, is never approved: the approved count, approved
    revenue, approved cost per acquisition and approved return are 0. *)
Theorem single_click_record (row : Row) (s : rng) :
  Clicks row = 1%Z ->
  exists cvr s1 row' s',
    realistic_cvr' row s = Ok (cvr, s1) /\
    fix_row' row s = Ok (row', s') /\
    Total_Conversion row' =
      (if Qltb (fst (np_random s1)) (cvr * inject_Z 1) then 1%Z else 0%Z) /\
    Approved_Conversion row' = 0%Z /\ Revenue_Approved row' = 0 /\
    CPA_Approved row' = 0 /\ ROAS_Approved row' == 0.
Proof.
  intros Hc.
  pose proof (fix_row_returns rng np_uniform np_random np_binomial
                uniform_range binomial_range row s) as Hret.
  destruct (returns_inv _ _ _ Hret) as (row' & s' & Erow & Hok).
  destruct (fix_row_inv_metrics _ _ _ _ Erow) as (m & Em & Ht & Ha & Hrt & Hra).
  destruct (calculate_inv_calls row s s' m) as (cvr & s1 & s2 & rpc & s3 & Ecvr & En & _);
    [lia | exact Em |].
  exists cvr, s1, row', s'. split; [exact Ecvr|]. split; [exact Erow|].
  pose proof (realistic_cvr_returns rng np_uniform row s) as Hcvr.
  apply (fun H => returns_ok _ _ _ _ _ H Ecvr) in Hcvr. cbv beta in Hcvr.
  rewrite Hc in En. unfold new_conversions in En.
  replace (Qltb (cvr * inject_Z 1) 0.15) with true in En
    by (symmetry; apply Qltb_true; change (inject_Z 1) with 1; lra).
  unfold bind, random, ret in En. destruct (np_random s1) as [u s4].
  injection En as En _. cbn [fst]. split; [congruence|].
  assert (Hbound : (0 <= Total_Conversion row' <= 1)%Z).
  { rewrite Ht, <- En. destruct (Qltb u _); lia. }
  destruct (metrics_ok_approved _ _ (metrics _ _ Hok)) as ([Ha0 Han] & _).
  destruct (metrics_ok_approved _ _ (metrics _ _ Hok)) as (_ & _ & H1 & _).
  cbn in Ha0, Han, H1.
  assert (Hz : Approved_Conversion row' = 0%Z).
  { destruct (Z.eq_dec (Total_Conversion row') 1) as [E1|E1]; [apply H1, E1 | lia]. }
  destruct (metrics_ok_revenue _ _ (metrics _ _ Hok)) as (_ & _ & _ & Hrev).
  cbn in Hrev. specialize (Hrev Hz).
  split; [exact Hz|]. split; [exact Hrev|]. split.
  - rewrite (cpa_approved_eq _ _ Hok), Hz. reflexivity.
  - rewrite (roas_approved_eq _ _ Hok), Hrev.
    destruct (Qgtb (Spent row) 0); [unfold Qdiv; apply Qmult_0_l | reflexivity].
Qed.

(** X3. A record with 30 clicks or more is always drawn from the
    Binomial distribution: the floor 0.005 on the rate makes the expected
    count at least 0.15. *)
Theorem thirty_clicks_always_binomial (row : Row) (s : rng) :
  (30 <= Clicks row)%Z ->
  exists cvr s1 row' s',
    realistic_cvr' row s = Ok (cvr, s1) /\
    fix_row' row s = Ok (row', s') /\
    Total_Conversion row' = fst (np_binomial (Clicks row) cvr s1).
Proof.
  intros Hc.
  pose proof (fix_row_returns rng np_uniform np_random np_binomial
                uniform_range binomial_range row s) as Hret.
  destruct (returns_inv _ _ _ Hret) as (row' & s' & Erow & Hok).
  destruct (fix_row_inv_metrics _ _ _ _ Erow) as (m & Em & Ht & _).
  destruct (calculate_inv_calls row s s' m) as (cvr & s1 & s2 & rpc & s3 & Ecvr & En & _);
    [lia | exact Em |].
  exists cvr, s1, row', s'. split; [exact Ecvr|]. split; [exact Erow|].
  pose proof (realistic_cvr_returns rng np_uniform row s) as Hcvr.
  apply (fun H => returns_ok _ _ _ _ _ H Ecvr) in Hcvr. cbv beta in Hcvr.
  pose proof (inject_Z_ge _ _ Hc) as Hq. change (inject_Z 30) with 30 in Hq.
  unfold new_conversions in En.
  replace (Qltb (cvr * inject_Z (Clicks row)) 0.15) with false in En
    by (symmetry; apply Qltb_false; nra).
  unfold binomial in En.
  destruct ((Clicks row <? 0)%Z || Qltb cvr 0 || Qgtb cvr 1); [discriminate|].
  destruct (np_binomial (Clicks row) cvr s1) as [n s4].
  injection En as En _. cbn [fst]. congruence.
Qed.




(** X6. In every record written, approved revenue is between 0 and
    total revenue, and the approved return on spend never exceeds the
    total one. *)
Theorem approved_revenue_at_most_total (df : list Row) (s : rng) :
  exists out s',
    fix_data' df s = Ok (out, s') /\
    Forall (fun r =>
              0 <= Revenue_Approved r <= Revenue_Total r /\
              0 <= ROAS_Approved r <= ROAS_Total r) out.
Proof.
  destruct (fix_data_Forall rng np_uniform np_random np_binomial np_seed
              uniform_range binomial_range
              (fun r =>
                 0 <= Revenue_Approved r <= Revenue_Total r /\
                 0 <= ROAS_Approved r <= ROAS_Total r) df s)
    as (out & s' & E & _ & H); [|exists out, s'; auto].
  intros row row' _ Hrow.
  destruct (metrics_ok_revenue_order _ _ (metrics _ _ Hrow)) as ([H0 Hle] & _).
  cbn in H0, Hle. split; [split; assumption|].
  rewrite (roas_approved_eq _ _ Hrow), (roas_total_eq _ _ Hrow).
  destruct (Qgtb (Spent row) 0) eqn:Es; [|split; discriminate].
  apply Qltb_true in Es. split.
  - apply Qle_shift_div_l; [exact Es | lra].
  - apply Qdiv_le_pos; assumption.
Qed.


(** X8. For a table whose click counts are non-negative, both
    conversion rates written are proportions: [0 <= CVR_Approved <=
    CVR_Total <= 1]. *)
Theorem conversion_rates_are_proportions (df : list Row) (s : rng) :
  Forall (fun r => (0 <= Clicks r)%Z) df ->
  exists out s',
    fix_data' df s = Ok (out, s') /\
    Forall (fun r => 0 <= CVR_Approved r /\ CVR_Approved r <= CVR_Total r /\
                     CVR_Total r <= 1) out.
Proof.
  intros Hdf.
  destruct (fix_data_Forall rng np_uniform np_random np_binomial np_seed
              uniform_range binomial_range
              (fun r => 0 <= CVR_Approved r /\ CVR_Approved r <= CVR_Total r /\
                        CVR_Total r <= 1) df s)
    as (out & s' & E & _ & H); [|exists out, s'; auto].
  intros row row' Hin Hrow.
  rewrite Forall_forall in Hdf. specialize (Hdf row Hin).
  pose proof (metrics _ _ Hrow) as Hm.
  destruct (metrics_ok_approved _ _ Hm) as ([Ha0 Han] & _).
  pose proof (conv_le_clicks _ _ Hm Hdf) as Hle.
  pose proof (cvr _ _ Hm) as Hcvr. cbn in Ha0, Han, Hle, Hcvr.
  destruct (Clicks row =? 0)%Z eqn:Ez.
  - destruct Hcvr as [-> ->]. repeat split; discriminate.
  - apply Z.eqb_neq in Ez. destruct Hcvr as [-> ->].
    assert (Hc : 0 < inject_Z (Clicks row)) by (apply inject_Z_pos; lia).
    pose proof (inject_Z_ge _ _ Ha0) as Hq0. change (inject_Z 0) with 0 in Hq0.
    pose proof (inject_Z_ge _ _ Han) as Hq1.
    pose proof (inject_Z_ge _ _ Hle) as Hq2.
    split; [apply Qle_shift_div_l; [exact Hc | lra]|].
    split; [apply Qdiv_le_pos; assumption|].
    apply Qle_shift_div_r; [exact Hc | lra].
Qed.

(** X9. The output table has one record per input record, in the same
    order, and each keeps its [age], [gender], [Impressions], [Clicks] and
    [Spent]. *)
Theorem input_columns_and_order_kept (df : list Row) (s : rng) :
  exists out s',
    fix_data' df s = Ok (out, s') /\
    List.map input_columns out = List.map input_columns df.
Proof.
  destruct (fix_data_Forall2 (fun row r => input_columns r = input_columns row) df s)
    as (out & s' & E & H).
  - intros row s0 row' s0' _ Hok. unfold input_columns.
    rewrite (keeps_age _ _ Hok), (keeps_gender _ _ Hok), (keeps_impressions _ _ Hok),
      (keeps_clicks _ _ Hok), (keeps_spent _ _ Hok). reflexivity.
  - exists out, s'. split; [exact E|]. clear E.
    induction H as [|row r df out Hr _ IH]; [reflexivity|].
    cbn [List.map]. rewrite Hr, IH. reflexivity.
Qed.

(** X10. On the output of the pipeline the consistency loop of
    [compare_before_after] counts every record: the reported
    revenue-conversion consistency is 100%. *)
Theorem revenue_conversion_fully_consistent (df : list Row) (s : rng) :
  exists out s',
    fix_data' df s = Ok (out, s') /\
    List.length out = List.length df /\
    revenue_conv_consistent out = List.length out.
Proof.
  destruct (fix_data_Forall rng np_uniform np_random np_binomial np_seed
              uniform_range binomial_range
              (fun r => (Revenue_Total r == 0 <-> Total_Conversion r = 0%Z) /\
                        ((0 < Total_Conversion r)%Z -> 0 < Revenue_Total r) /\
                        (0 <= Total_Conversion r)%Z) df s)
    as (out & s' & E & Hlen & H).
  - intros row row' _ Hrow.
    destruct (metrics_ok_revenue _ _ (metrics _ _ Hrow)) as (Hiff & _ & Hpos & _).
    split; [exact Hiff|]. split; [exact Hpos|].
    exact (conv_nonneg _ _ (metrics _ _ Hrow)).
  - exists out, s'. split; [exact E|]. split; [exact Hlen|].
    apply revenue_conv_consistent_all, H.
Qed.

(** X11. The loop threads one stream through the table: running it on a
    table and then, from the state it leaves, on a second table gives the
    run on the concatenated table. *)
Theorem loop_threads_one_stream (df1 df2 out1 out2 : list Row) (s s1 s2 : rng) :
  fix_rows' df1 s = Ok (out1, s1) ->
  fix_rows' df2 s1 = Ok (out2, s2) ->
  fix_rows' (df1 ++ df2) s = Ok (out1 ++ out2, s2).
Proof.
  intros E1 E2.
  rewrite (fix_rows_app rng np_uniform np_random np_binomial df1 df2 s).
  unfold bind. rewrite E1, E2. reflexivity.
Qed.

End SynthesizerMore.

(** The counts of [analyze_roas] and [analyze_cvr] are nested. *)
Lemma count_rows_le {A} (f g : A -> bool) (df : list A) :
  (forall r, f r = true -> g r = true) ->
  (count_rows f df <= count_rows g df)%nat.
Proof.
  intros H. unfold count_rows. induction df as [|r df IH]; [apply le_n|].
  cbn [List.filter]. destruct (f r) eqn:Ef.
  - rewrite (H r Ef). cbn. lia.
  - destruct (g r); cbn; lia.
Qed.

(** X12. The counts reported by [analyze_roas] and [analyze_cvr] are
    nested: the records above the extreme threshold are among those above
    the high one. *)
Theorem extreme_counts_at_most_high (df : list Row) :
  (extreme_roas df <= high_roas df)%nat /\ (extreme_cvr df <= high_cvr df)%nat.
Proof.
  split; apply count_rows_le; intros r H; apply Qltb_true in H; apply Qltb_true; lra.
Qed.

(** * The preprocessing script *)

Lemma rbind_inv {A B} (r : result A) (k : A -> result B) (b : B) :
  rbind r k = Ok b -> exists a, r = Ok a /\ k a = Ok b.
Proof.
  destruct r as [a|e]; [|discriminate]. intros H. exists a. auto.
Qed.


Section PreprocessFacts.

Import Preprocess.




Lemma rmap_Forall2 {A B} (f : A -> result B) (l : list A) (l' : list B) :
  rmap f l = Ok l' -> Forall2 (fun a b => f a = Ok b) l l'.
Proof.
  revert l'. induction l as [|a l IH]; intros l' E; cbn [rmap] in E.
  - injection E as <-. constructor.
  - apply rbind_inv in E as (b & Eb & E).
    apply rbind_inv in E as (bs & Ebs & E).
    injection E as <-. constructor; [exact Eb | apply IH, Ebs].
Qed.


(** The index labels of a table are the positions of its rows. *)
Lemma with_index_from {A} (pre df : list A) :
  Forall (fun ir => List.nth_error (pre ++ df) (fst ir) = Some (snd ir))
         (List.combine (List.seq (List.length pre) (List.length df)) df).
Proof.
  revert pre. induction df as [|a df IH]; intros pre; cbn; constructor.
  - cbn. rewrite nth_error_app2 by lia. rewrite Nat.sub_diag. reflexivity.
  - specialize (IH (pre ++ [a])). rewrite length_app, Nat.add_comm in IH. cbn in IH.
    rewrite <- app_assoc in IH. exact IH.
Qed.

Lemma with_index_labels {A} (df : list A) :
  Forall (fun ir => List.nth_error df (fst ir) = Some (snd ir)) (with_index df).
Proof. exact (with_index_from [] df). Qed.

Lemma with_index_rows {A} (df : list A) : List.map snd (with_index df) = df.
Proof.
  unfold with_index. generalize 0%nat.
  induction df as [|a df IH]; intros n; cbn; [reflexivity|]. rewrite IH. reflexivity.
Qed.

(** Indexing by a condition computed on the whole table keeps the rows
    that satisfy it. *)
Lemma boolean_index_filter {A} (f : A -> bool) (df : list A) (df_clean : list (nat * A)) :
  Forall (fun ir => List.nth_error df (fst ir) = Some (snd ir)) df_clean ->
  boolean_index df_clean (List.map f df) = List.filter (fun ir => f (snd ir)) df_clean.
Proof.
  intros H. unfold boolean_index. apply filter_ext_in. intros [i a] Hin.
  rewrite Forall_forall in H. specialize (H _ Hin). cbn [fst snd] in *.
  erewrite nth_error_nth; [reflexivity|]. rewrite nth_error_map, H. reflexivity.
Qed.

Lemma filter_labels {A} (P : nat * A -> Prop) (f : nat * A -> bool) (l : list (nat * A)) :
  Forall P l -> Forall P (List.filter f l).
Proof.
  intros H. rewrite Forall_forall in *. intros x Hx.
  apply filter_In in Hx as [Hx _]. apply H, Hx.
Qed.

Lemma filter_filter {A} (f g : A -> bool) (l : list A) :
  List.filter g (List.filter f l) = List.filter (fun x => f x && g x) l.
Proof.
  induction l as [|a l IH]; [reflexivity|]. cbn [List.filter].
  destruct (f a); cbn [List.filter andb]; [destruct (g a)|]; rewrite IH; reflexivity.
Qed.

Lemma map_snd_filter {A} (f : A -> bool) (l : list (nat * A)) :
  List.map snd (List.filter (fun ir => f (snd ir)) l) = List.filter f (List.map snd l).
Proof.
  induction l as [|[i a] l IH]; [reflexivity|]. cbn [List.filter List.map snd].
  destruct (f a); cbn [List.map snd]; rewrite IH; reflexivity.
Qed.

Lemma clean_filter (df : list (Ad * Kpi)) :
  clean df = List.filter (fun ir => passes_cleaning (fst (snd ir))) (with_index df).
Proof.
  unfold clean, clean_conditions. cbn [fold_left].
  pose proof (with_index_labels df) as H0.
  rewrite (boolean_index_filter (fun r => Qgtb (Spent (fst r)) 0) df _ H0).
  pose proof (filter_labels _ (fun ir => Qgtb (Spent (fst (snd ir))) 0) _ H0) as H1.
  rewrite (boolean_index_filter (fun r => (Impressions (fst r) >? 0)%Z) df _ H1).
  rewrite filter_filter.
  match goal with |- context [boolean_index (List.filter ?f _) _] =>
    pose proof (filter_labels _ f _ H0) as H2 end.
  rewrite (boolean_index_filter
             (fun r => (Impressions (fst r) >=? Clicks (fst r))%Z) df _ H2).
  rewrite filter_filter.
  match goal with |- context [boolean_index (List.filter ?f _) _] =>
    pose proof (filter_labels _ f _ H0) as H3 end.
  rewrite (boolean_index_filter
             (fun r => (Clicks (fst r) >=? Total_Conversion (fst r))%Z) df _ H3).
  rewrite filter_filter.
  match goal with |- context [boolean_index (List.filter ?f _) _] =>
    pose proof (filter_labels _ f _ H0) as H4 end.
  rewrite (boolean_index_filter
             (fun r => (Total_Conversion (fst r) >=? Approved_Conversion (fst r))%Z)
             df _ H4).
  rewrite filter_filter. reflexivity.
Qed.

(** X15. Step 7 keeps, in table order and under their original index
    labels, exactly the rows that satisfy all five conditions, although
    each condition is a column of the table before cleaning. *)
Theorem clean_keeps_rows_passing_all_conditions (df : list (Ad * Kpi)) :
  List.map snd (clean df) = List.filter (fun r => passes_cleaning (fst r)) df /\
  Forall (fun ir => List.nth_error df (fst ir) = Some (snd ir)) (clean df).
Proof.
  rewrite clean_filter. split.
  - rewrite (map_snd_filter (fun r => passes_cleaning (fst r))), with_index_rows.
    reflexivity.
  - apply filter_labels, with_index_labels.
Qed.

Lemma passes_cleaning_true (row : Ad) :
  passes_cleaning row = true ->
  0 < Spent row /\ (0 < Impressions row)%Z /\ (Clicks row <= Impressions row)%Z /\
  (Total_Conversion row <= Clicks row)%Z /\
  (Approved_Conversion row <= Total_Conversion row)%Z.
Proof.
  unfold passes_cleaning. rewrite !andb_true_iff.
  intros ((((Hs & Hi) & Hc) & Ht) & Ha). apply Qltb_true in Hs.
  repeat split; [exact Hs | lia..].
Qed.

Lemma clean_rows_pass (df : list (Ad * Kpi)) (ir : nat * (Ad * Kpi)) :
  In ir (clean df) -> passes_cleaning (fst (snd ir)) = true /\ In (snd ir) df.
Proof.
  rewrite clean_filter. intros H. apply filter_In in H as [Hin Hp].
  split; [exact Hp|]. rewrite <- (with_index_rows df). apply in_map, Hin.
Qed.

Lemma count_rows_none {A} (f : A -> bool) (l : list A) :
  Forall (fun x => f x = false) l -> count_rows f l = 0%nat.
Proof. intros H. unfold count_rows. rewrite filter_nil_Forall; [reflexivity | exact H]. Qed.

(** X16. The funnel checks of step 3 find no issue in the table left by
    step 7. *)
Theorem cleaned_table_has_no_logic_issue (df : list (Ad * Kpi)) :
  logic_issues (List.map (fun ir => fst (snd ir)) (clean df)) = [].
Proof.
  assert (H : Forall (fun row => passes_cleaning row = true)
                     (List.map (fun ir => fst (snd ir)) (clean df))).
  { rewrite Forall_forall. intros row Hin. apply in_map_iff in Hin as (ir & <- & Hin).
    apply (clean_rows_pass df ir Hin). }
  unfold logic_issues, impressions_clicks_issue, clicks_conversion_issue,
    total_approved_issue.
  rewrite !count_rows_none; [reflexivity|..];
    (eapply Forall_impl; [|exact H]); intros row Hp;
    apply passes_cleaning_true in Hp; lia.
Qed.


(** X18. For the two cost metrics the benchmark comparison has only two
    outcomes: a mean cost per click of at least 0.5 (a cost per mille of
    at least 5) is reported as excellent, however high, and anything below
    as needing optimization; good and average are never reported. *)
Theorem cost_benchmarks_never_good_or_average (current_value : Q) :
  benchmark_status "CPC" (Some current_value) =
    Ok (Some (if Qle_bool 0.5 current_value then Excellent else Needs_optimization)) /\
  benchmark_status "CPM" (Some current_value) =
    Ok (Some (if Qle_bool 5 current_value then Excellent else Needs_optimization)).
Proof.
  unfold benchmark_status. cbn [dict_mem benchmarks existsb fst String.eqb Ascii.eqb
    Bool.eqb orb dict_index rbind].
  split.
  - destruct (Qle_bool 0.5 current_value) eqn:E1; [reflexivity|].
    destruct (Qle_bool 1.0 current_value) eqn:E2.
    { apply Qle_bool_iff in E2. assert (H : 0.5 <= current_value) by lra.
      apply Qle_bool_iff in H. congruence. }
    destruct (Qle_bool 1.5 current_value) eqn:E3; [|reflexivity].
    apply Qle_bool_iff in E3. assert (H : 0.5 <= current_value) by lra.
    apply Qle_bool_iff in H. congruence.
  - destruct (Qle_bool 5 current_value) eqn:E1; [reflexivity|].
    destruct (Qle_bool 10 current_value) eqn:E2.
    { apply Qle_bool_iff in E2. assert (H : 5 <= current_value) by lra.
      apply Qle_bool_iff in H. congruence. }
    destruct (Qle_bool 15 current_value) eqn:E3; [|reflexivity].
    apply Qle_bool_iff in E3. assert (H : 5 <= current_value) by lra.
    apply Qle_bool_iff in H. congruence.
Qed.

End PreprocessFacts.

(** * The outlier cleaning script *)

Section OutlierFacts.

Import Outlier.

Lemma select_rows {A} (f : A -> bool) (l : list A) :
  List.map fst (List.filter snd (List.combine l (List.map f l))) = List.filter f l.
Proof.
  induction l as [|row l IH]; [reflexivity|].
  cbn [List.map List.combine List.filter snd]. destruct (f row); cbn [List.map fst];
    rewrite IH; reflexivity.
Qed.

Lemma select_mask (df : DataFrame) (f : frame_row -> bool) :
  select df (List.map f (rows df)) = mkFrame (columns df) (List.filter f (rows df)).
Proof. unfold select. rewrite select_rows. reflexivity. Qed.

Lemma mask_and_map {A} (f g : A -> bool) (l : list A) :
  mask_and (List.map f l) (List.map g l) = List.map (fun x => f x && g x) l.
Proof.
  unfold mask_and. induction l as [|a l IH]; [reflexivity|].
  cbn [List.map List.combine fst snd]. rewrite IH. reflexivity.
Qed.

Lemma column_present (df : DataFrame) (metric : string) :
  has_column df metric = true ->
  column df metric = Ok (List.map (fun row => value row metric) (rows df)).
Proof. unfold column. intros ->. reflexivity. Qed.

Lemma column_absent (df : DataFrame) (metric : string) :
  has_column df metric = false -> column df metric = Raise KeyError.
Proof. unfold column. intros ->. reflexivity. Qed.

(** A range rule reads its bounds and then filters the rows. *)
Lemma range_rule_eq (r : rule) (metric kmin kmax : string) (config : list (string * Q))
    (df : DataFrame) (steps : list (rule * Z)) :
  range_rule r metric kmin kmax config df steps =
    (bounds <~ rule_bounds (columns df) config metric kmin kmax ;;
     let out := mkFrame (columns df)
                        (List.filter (keeps_range bounds metric) (rows df)) in
     Ok (out, steps ++ rule_step bounds r (len df - len out))).
Proof.
  unfold range_rule, rule_bounds. fold (has_column df metric).
  destruct (has_column df metric) eqn:Hc.
  - rewrite (column_present _ _ Hc). cbn [rbind].
    destruct (dict_index config kmin) as [lo|e]; [|reflexivity]. cbn [rbind].
    destruct (dict_index config kmax) as [hi|e]; [|reflexivity]. cbn [rbind].
    rewrite !map_map, !mask_and_map, select_mask. reflexivity.
  - cbn [rbind rule_step]. rewrite app_nil_r.
    assert (E : List.filter (keeps_range None metric) (rows df) = rows df).
    { induction (rows df) as [|a l IH]; [reflexivity|]. cbn. rewrite IH. reflexivity. }
    rewrite E. destruct df; reflexivity.
Qed.

(** [apply_cleaning_rules] in closed form: the bounds are read in the
    order of the rules, the rows are filtered rule after rule, and the
    removal rate divides by the number of rows received. *)
Lemma apply_cleaning_rules_eq (df : DataFrame) (config : list (string * Q)) :
  apply_cleaning_rules df config =
    (roas <~ rule_bounds (columns df) config "ROAS_Approved" "ROAS_MIN" "ROAS_MAX" ;;
     let r1 := List.filter (keeps_range roas "ROAS_Approved") (rows df) in
     cpa <~ rule_bounds (columns df) config "CPA_Approved" "CPA_MIN" "CPA_MAX" ;;
     let r2 := List.filter (keeps_range cpa "CPA_Approved") r1 in
     cpc <~ rule_bounds (columns df) config "CPC" "CPC_MIN" "CPC_MAX" ;;
     let r3 := List.filter (keeps_range cpc "CPC") r2 in
     cpm <~ rule_bounds (columns df) config "CPM" "CPM_MIN" "CPM_MAX" ;;
     let r4 := List.filter (keeps_range cpm "CPM") r3 in
     minimum <~ minimum_bounds (columns df) config ;;
     let r5 := List.filter (keeps_minimum minimum) r4 in
     let steps :=
       (((([] ++ rule_step roas ROAS_rule (count_of (rows df) - count_of r1))
          ++ rule_step cpa CPA_rule (count_of r1 - count_of r2))
         ++ rule_step cpc CPC_rule (count_of r2 - count_of r3))
        ++ rule_step cpm CPM_rule (count_of r3 - count_of r4))
       ++ [(Minimum_rule, (count_of r4 - count_of r5)%Z)] in
     ratio <~ py_div (inject_Z (count_of (rows df) - count_of r5))
                     (inject_Z (count_of (rows df))) ;;
     Ok (mkFrame (columns df) r5,
         mkLog (count_of (rows df)) steps (count_of r5)
               (count_of (rows df) - count_of r5) (ratio * 100))).
Proof.
  unfold apply_cleaning_rules. cbv zeta.
  rewrite range_rule_eq.
  destruct (rule_bounds (columns df) config "ROAS_Approved" "ROAS_MIN" "ROAS_MAX")
    as [roas|e]; [|reflexivity].
  cbn [rbind]. cbv zeta. rewrite range_rule_eq. cbn [columns rows].
  destruct (rule_bounds (columns df) config "CPA_Approved" "CPA_MIN" "CPA_MAX")
    as [cpa|e]; [|reflexivity].
  cbn [rbind]. cbv zeta. rewrite range_rule_eq. cbn [columns rows].
  destruct (rule_bounds (columns df) config "CPC" "CPC_MIN" "CPC_MAX")
    as [cpc|e]; [|reflexivity].
  cbn [rbind]. cbv zeta. rewrite range_rule_eq. cbn [columns rows].
  destruct (rule_bounds (columns df) config "CPM" "CPM_MIN" "CPM_MAX")
    as [cpm|e]; [|reflexivity].
  cbn [rbind]. cbv zeta.
  unfold minimum_bounds, column, has_column. cbn [columns rows].
  destruct (existsb (String.eqb "Spent") (columns df)); [|reflexivity].
  cbn [rbind].
  destruct (dict_index config "MIN_SPEND") as [min_spend|e]; [|reflexivity].
  cbn [rbind].
  destruct (existsb (String.eqb "Approved_Conversion") (columns df)); [|reflexivity].
  cbn [rbind].
  destruct (dict_index config "MIN_CONVERSIONS") as [min_conversions|e]; [|reflexivity].
  cbn [rbind].
  rewrite !map_map, mask_and_map. unfold select. cbn [columns rows].
  rewrite select_rows. reflexivity.
Qed.

Lemma filter_keeps (roas cpa cpc cpm : option (Q * Q)) (minimum : Q * Q)
    (l : list frame_row) :
  List.filter (keeps_minimum minimum)
    (List.filter (keeps_range cpm "CPM")
       (List.filter (keeps_range cpc "CPC")
          (List.filter (keeps_range cpa "CPA_Approved")
             (List.filter (keeps_range roas "ROAS_Approved") l)))) =
  List.filter (keeps roas cpa cpc cpm minimum) l.
Proof.
  rewrite !filter_filter. apply filter_ext. intros row. unfold keeps.
  rewrite !andb_assoc. reflexivity.
Qed.

Lemma count_of_filter_le (f : frame_row -> bool) (l : list frame_row) :
  (0 <= count_of (List.filter f l) <= count_of l)%Z.
Proof.
  unfold count_of. pose proof (filter_length_le f l). lia.
Qed.

Lemma sum_removed_app (s1 s2 : list (rule * Z)) :
  sum_removed (s1 ++ s2) = (sum_removed s1 + sum_removed s2)%Z.
Proof.
  unfold sum_removed. induction s1 as [|[r n] s1 IH]; cbn; [reflexivity|].
  cbn in IH. rewrite IH. lia.
Qed.

Lemma sum_removed_step (b : option (Q * Q)) (r : rule) (f : frame_row -> bool)
    (l : list frame_row) :
  (forall row, b = None -> f row = true) ->
  sum_removed (rule_step b r (count_of l - count_of (List.filter f l))) =
    (count_of l - count_of (List.filter f l))%Z.
Proof.
  intros H. destruct b; cbn; [lia|].
  assert (E : List.filter f l = l).
  { induction l as [|a l IH]; [reflexivity|]. cbn. rewrite (H a eq_refl), IH. reflexivity. }
  rewrite E. lia.
Qed.

Lemma py_div_inv (a b c : Q) : py_div a b = Ok c -> ~ b == 0 /\ c = a / b.
Proof.
  unfold py_div. destruct (Qeq_bool b 0) eqn:E; [discriminate|].
  intros H. injection H as <-. split; [|reflexivity].
  intros Hz. apply Qeq_bool_iff in Hz. congruence.
Qed.

(** What a successful run of [apply_cleaning_rules] has read and
    returned. *)
Lemma apply_cleaning_rules_inv (df out : DataFrame) (config : list (string * Q))
    (log : Log) :
  apply_cleaning_rules df config = Ok (out, log) ->
  exists roas cpa cpc cpm minimum,
    rule_bounds (columns df) config "ROAS_Approved" "ROAS_MIN" "ROAS_MAX" = Ok roas /\
    rule_bounds (columns df) config "CPA_Approved" "CPA_MIN" "CPA_MAX" = Ok cpa /\
    rule_bounds (columns df) config "CPC" "CPC_MIN" "CPC_MAX" = Ok cpc /\
    rule_bounds (columns df) config "CPM" "CPM_MIN" "CPM_MAX" = Ok cpm /\
    minimum_bounds (columns df) config = Ok minimum /\
    out = mkFrame (columns df)
                  (List.filter (keeps roas cpa cpc cpm minimum) (rows df)) /\
    original_count log = count_of (rows df) /\
    final_count log = count_of (rows out) /\
    total_removed log = (count_of (rows df) - count_of (rows out))%Z /\
    sum_removed (steps log) = total_removed log /\
    Forall (fun st => (0 <= snd st)%Z) (steps log) /\
    removal_rate log =
      inject_Z (total_removed log) / inject_Z (original_count log) * 100 /\
    rows df <> [].
Proof.
  rewrite apply_cleaning_rules_eq. intros E.
  apply rbind_inv in E as (roas & Eroas & E). cbv zeta in E.
  apply rbind_inv in E as (cpa & Ecpa & E).
  apply rbind_inv in E as (cpc & Ecpc & E).
  apply rbind_inv in E as (cpm & Ecpm & E).
  apply rbind_inv in E as (minimum & Emin & E).
  apply rbind_inv in E as (ratio & Eratio & E).
  apply py_div_inv in Eratio as [Hnz ->].
  injection E as <- <-. cbn [original_count final_count total_removed steps
    removal_rate rows columns].
  rewrite filter_keeps.
  exists roas, cpa, cpc, cpm, minimum.
  do 5 (split; [assumption|]). split; [reflexivity|]. do 3 (split; [reflexivity|]).
  set (r1 := List.filter (keeps_range roas "ROAS_Approved") (rows df)).
  set (r2 := List.filter (keeps_range cpa "CPA_Approved") r1).
  set (r3 := List.filter (keeps_range cpc "CPC") r2).
  set (r4 := List.filter (keeps_range cpm "CPM") r3).
  assert (E5 : List.filter (keeps roas cpa cpc cpm minimum) (rows df) =
               List.filter (keeps_minimum minimum) r4)
    by (symmetry; apply filter_keeps).
  split; [|split; [|split]].
  - rewrite !sum_removed_app. cbn [app].
    unfold r4 at 1, r3 at 1, r2 at 1, r1 at 1.
    rewrite !sum_removed_step by (intros row ->; reflexivity).
    fold r1 r2 r3 r4. rewrite E5. unfold sum_removed. cbn. lia.
  - pose proof (count_of_filter_le (keeps_range roas "ROAS_Approved") (rows df)).
    pose proof (count_of_filter_le (keeps_range cpa "CPA_Approved") r1).
    pose proof (count_of_filter_le (keeps_range cpc "CPC") r2).
    pose proof (count_of_filter_le (keeps_range cpm "CPM") r3).
    pose proof (count_of_filter_le (keeps_minimum minimum) r4).
    fold r1 in H. fold r2 in H0. fold r3 in H1. fold r4 in H2.
    rewrite E5.
    repeat (apply Forall_app; split);
      try (match goal with |- Forall _ (rule_step ?b _ _) => destruct b end);
      repeat constructor; cbn [snd]; lia.
  - reflexivity.
  - intros Hnil. apply Hnz. rewrite Hnil. reflexivity.
Qed.

(** X19. A successful run of [apply_cleaning_rules] returns the columns
    unchanged and, in their order, exactly the rows that pass every rule:
    for each of ROAS_Approved, CPA_Approved, CPC and CPM that is a column, a
    value that is not NaN and lies within the configured bounds, and
    [Spent] and [Approved_Conversion] at least the configured minimums. *)
Theorem cleaning_keeps_rows_within_bounds (df out : DataFrame)
    (config : list (string * Q)) (log : Log) :
  apply_cleaning_rules df config = Ok (out, log) ->
  exists roas cpa cpc cpm minimum,
    rule_bounds (columns df) config "ROAS_Approved" "ROAS_MIN" "ROAS_MAX" = Ok roas /\
    rule_bounds (columns df) config "CPA_Approved" "CPA_MIN" "CPA_MAX" = Ok cpa /\
    rule_bounds (columns df) config "CPC" "CPC_MIN" "CPC_MAX" = Ok cpc /\
    rule_bounds (columns df) config "CPM" "CPM_MIN" "CPM_MAX" = Ok cpm /\
    minimum_bounds (columns df) config = Ok minimum /\
    columns out = columns df /\
    rows out = List.filter (keeps roas cpa cpc cpm minimum) (rows df).
Proof.
  intros E.
  destruct (apply_cleaning_rules_inv _ _ _ _ E)
    as (roas & cpa & cpc & cpm & minimum & E1 & E2 & E3 & E4 & E5 & -> & _).
  exists roas, cpa, cpc, cpm, minimum. repeat (split; [assumption|]).
  split; reflexivity.
Qed.

(** X20. The log of a successful run adds up: the counts are those of
    the tables received and returned, the records removed by the steps sum
    to the total removed, no step removes a negative number, and the
    removal rate is between 0 and 100. *)
Theorem cleaning_log_adds_up (df out : DataFrame) (config : list (string * Q))
    (log : Log) :
  apply_cleaning_rules df config = Ok (out, log) ->
  original_count log = len df /\ final_count log = len out /\
  (0 <= final_count log <= original_count log)%Z /\
  (original_count log = final_count log + total_removed log)%Z /\
  sum_removed (steps log) = total_removed log /\
  Forall (fun st => (0 <= snd st)%Z) (steps log) /\
  0 <= removal_rate log <= 100.
Proof.
  intros E.
  destruct (apply_cleaning_rules_inv _ _ _ _ E)
    as (roas & cpa & cpc & cpm & minimum & _ & _ & _ & _ & _ & Hout & Ho & Hf & Ht
        & Hsum & Hsteps & Hrate & Hne).
  split; [exact Ho|]. split; [exact Hf|].
  assert (Hb : (0 <= count_of (rows out) <= count_of (rows df))%Z).
  { rewrite Hout. cbn [rows]. apply count_of_filter_le. }
  assert (Hpos : (0 < count_of (rows df))%Z).
  { unfold count_of. destruct (rows df); [contradiction | cbn; lia]. }
  rewrite Ho, Hf. split; [exact Hb|]. split; [rewrite Ht; lia|].
  split; [exact Hsum|]. split; [exact Hsteps|].
  rewrite Hrate, Ht, Ho.
  pose proof (inject_Z_pos _ Hpos) as Hq.
  assert (H0 : 0 <= inject_Z (count_of (rows df) - count_of (rows out))).
  { change 0 with (inject_Z 0). rewrite <- Zle_Qle. lia. }
  assert (H1 : inject_Z (count_of (rows df) - count_of (rows out))
               <= inject_Z (count_of (rows df))).
  { rewrite <- Zle_Qle. lia. }
  split.
  - apply Qmult_le_0_compat; [|discriminate].
    apply Qle_shift_div_l; [exact Hq | lra].
  - assert (inject_Z (count_of (rows df) - count_of (rows out))
            / inject_Z (count_of (rows df)) <= 1)
      by (apply Qle_shift_div_r; [exact Hq | lra]).
    lra.
Qed.

(** A run whose bounds are all read succeeds on a table with rows, and
    divides by zero on a table without. *)
Lemma apply_cleaning_rules_run (df : DataFrame) (config : list (string * Q))
    (roas cpa cpc cpm : option (Q * Q)) (minimum : Q * Q) :
  rule_bounds (columns df) config "ROAS_Approved" "ROAS_MIN" "ROAS_MAX" = Ok roas ->
  rule_bounds (columns df) config "CPA_Approved" "CPA_MIN" "CPA_MAX" = Ok cpa ->
  rule_bounds (columns df) config "CPC" "CPC_MIN" "CPC_MAX" = Ok cpc ->
  rule_bounds (columns df) config "CPM" "CPM_MIN" "CPM_MAX" = Ok cpm ->
  minimum_bounds (columns df) config = Ok minimum ->
  let kept := List.filter (keeps roas cpa cpc cpm minimum) (rows df) in
  (rows df = [] -> apply_cleaning_rules df config = Raise ZeroDivisionError) /\
  (rows df <> [] ->
   exists log,
     apply_cleaning_rules df config = Ok (mkFrame (columns df) kept, log) /\
     final_count log = count_of kept /\
     total_removed log = (count_of (rows df) - count_of kept)%Z /\
     removal_rate log =
       inject_Z (count_of (rows df) - count_of kept) / inject_Z (count_of (rows df)) * 100).
Proof.
  intros E1 E2 E3 E4 E5 kept.
  rewrite apply_cleaning_rules_eq, E1, E2, E3, E4, E5. cbn [rbind]. cbv zeta.
  rewrite filter_keeps. fold kept. split.
  - intros Hnil. unfold kept. rewrite Hnil. reflexivity.
  - intros Hne.
    assert (Hnz : ~ inject_Z (count_of (rows df)) == 0).
    { unfold count_of. destruct (rows df); [contradiction|]. discriminate. }
    rewrite (py_div_ok _ _ Hnz). cbn [rbind]. eexists. split; [reflexivity|].
    cbn [final_count total_removed removal_rate]. repeat split.
Qed.

Lemma filter_idempotent {A} (f : A -> bool) (l : list A) :
  List.filter f (List.filter f l) = List.filter f l.
Proof.
  rewrite filter_filter. apply filter_ext. intros a. apply andb_diag.
Qed.

(** X21. Cleaning is idempotent: cleaning again a table returned by
    [apply_cleaning_rules], if it has rows, returns the same table and
    removes nothing. *)
Theorem cleaning_twice_removes_nothing (df out : DataFrame)
    (config : list (string * Q)) (log : Log) :
  apply_cleaning_rules df config = Ok (out, log) ->
  rows out <> [] ->
  exists log',
    apply_cleaning_rules out config = Ok (out, log') /\
    total_removed log' = 0%Z /\ removal_rate log' == 0.
Proof.
  intros E Hne.
  destruct (apply_cleaning_rules_inv _ _ _ _ E)
    as (roas & cpa & cpc & cpm & minimum & E1 & E2 & E3 & E4 & E5 & Hout & _).
  assert (Hcols : columns out = columns df) by (rewrite Hout; reflexivity).
  rewrite <- Hcols in E1, E2, E3, E4, E5.
  destruct (apply_cleaning_rules_run out config _ _ _ _ _ E1 E2 E3 E4 E5) as [_ Hrun].
  destruct (Hrun Hne) as (log' & Erun & _ & Ht & Hr).
  assert (Hsame : List.filter (keeps roas cpa cpc cpm minimum) (rows out) = rows out).
  { rewrite Hout. cbn [rows]. apply filter_idempotent. }
  rewrite Hsame in Erun, Ht, Hr.
  exists log'. split.
  - rewrite Erun. destruct out; reflexivity.
  - split; [rewrite Ht; lia|]. rewrite Hr, Z.sub_diag. reflexivity.
Qed.

Lemma cleaning_config_bounds (cols : list string) :
  let has m := List.existsb (String.eqb m) cols in
  rule_bounds cols CLEANING_CONFIG "ROAS_Approved" "ROAS_MIN" "ROAS_MAX" =
    Ok (if has "ROAS_Approved"%string then Some (0.01, 100) else None) /\
  rule_bounds cols CLEANING_CONFIG "CPA_Approved" "CPA_MIN" "CPA_MAX" =
    Ok (if has "CPA_Approved"%string then Some (0.1, 1000) else None) /\
  rule_bounds cols CLEANING_CONFIG "CPC" "CPC_MIN" "CPC_MAX" =
    Ok (if has "CPC"%string then Some (0.01, 50) else None) /\
  rule_bounds cols CLEANING_CONFIG "CPM" "CPM_MIN" "CPM_MAX" =
    Ok (if has "CPM"%string then Some (0.01, 200) else None) /\
  minimum_bounds cols CLEANING_CONFIG =
    if has "Spent"%string && has "Approved_Conversion"%string
    then Ok (0.01, 0) else Raise KeyError.
Proof.
  cbv zeta. unfold rule_bounds, minimum_bounds.
  repeat split;
    repeat match goal with |- context [existsb ?f cols] => destruct (existsb f cols) end;
    reflexivity.
Qed.

Lemma backup_config_bounds (cols : list string) :
  let has m := List.existsb (String.eqb m) cols in
  rule_bounds cols BACKUP_CONFIG "ROAS_Approved" "ROAS_MIN" "ROAS_MAX" =
    Ok (if has "ROAS_Approved"%string then Some (0.001, 500) else None) /\
  rule_bounds cols BACKUP_CONFIG "CPA_Approved" "CPA_MIN" "CPA_MAX" =
    Ok (if has "CPA_Approved"%string then Some (0.01, 5000) else None) /\
  rule_bounds cols BACKUP_CONFIG "CPC" "CPC_MIN" "CPC_MAX" =
    Ok (if has "CPC"%string then Some (0.001, 100) else None) /\
  rule_bounds cols BACKUP_CONFIG "CPM" "CPM_MIN" "CPM_MAX" =
    Ok (if has "CPM"%string then Some (0.001, 1000) else None) /\
  minimum_bounds cols BACKUP_CONFIG =
    if has "Spent"%string && has "Approved_Conversion"%string
    then Ok (0.001, 0) else Raise KeyError.
Proof.
  cbv zeta. unfold rule_bounds, minimum_bounds.
  repeat split;
    repeat match goal with |- context [existsb ?f cols] => destruct (existsb f cols) end;
    reflexivity.
Qed.

(** X22. On a table without rows that has the [Spent] and
    [Approved_Conversion] columns, [apply_cleaning_rules] raises
    [ZeroDivisionError] when it computes the removal rate, with either
    configuration of the script. *)
Theorem cleaning_empty_table_divides_by_zero (df : DataFrame) :
  rows df = [] ->
  has_column df "Spent" = true -> has_column df "Approved_Conversion" = true ->
  apply_cleaning_rules df CLEANING_CONFIG = Raise ZeroDivisionError /\
  apply_cleaning_rules df BACKUP_CONFIG = Raise ZeroDivisionError.
Proof.
  intros Hnil Hs Ha. unfold has_column in Hs, Ha. split.
  - destruct (cleaning_config_bounds (columns df)) as (E1 & E2 & E3 & E4 & E5).
    cbv zeta in E5. rewrite Hs, Ha in E5.
    exact (proj1 (apply_cleaning_rules_run df _ _ _ _ _ _ E1 E2 E3 E4 E5) Hnil).
  - destruct (backup_config_bounds (columns df)) as (E1 & E2 & E3 & E4 & E5).
    cbv zeta in E5. rewrite Hs, Ha in E5.
    exact (proj1 (apply_cleaning_rules_run df _ _ _ _ _ _ E1 E2 E3 E4 E5) Hnil).
Qed.

(** X23. The last rule is not guarded like the four range rules: a
    table without a [Spent] or an [Approved_Conversion] column makes
    [apply_cleaning_rules] raise [KeyError], whatever its rows and its other
    columns. *)
Theorem cleaning_requires_spent_and_approved (df : DataFrame) :
  has_column df "Spent" = false \/ has_column df "Approved_Conversion" = false ->
  apply_cleaning_rules df CLEANING_CONFIG = Raise KeyError.
Proof.
  intros H. rewrite apply_cleaning_rules_eq.
  destruct (cleaning_config_bounds (columns df)) as (E1 & E2 & E3 & E4 & E5).
  cbv zeta in E5. rewrite E1, E2, E3, E4, E5. cbn [rbind]. 
  unfold has_column in H.
  destruct H as [H|H]; rewrite H; [|rewrite andb_false_r]; reflexivity.
Qed.

Lemma in_range_true (lo hi : Q) (c : cell) :
  in_range lo hi c = true <-> exists v, c = Some v /\ lo <= v <= hi.
Proof.
  unfold in_range, ge, le, notna. destruct c as [v|].
  - rewrite !andb_true_iff, !Qle_bool_iff. split.
    + intros [[H1 H2] _]. exists v. auto.
    + intros (v' & E & H1 & H2). injection E as <-. auto.
  - cbn. split; [discriminate | intros (v & E & _); discriminate].
Qed.

Lemma in_range_wider (lo hi lo' hi' : Q) (c : cell) :
  lo' <= lo -> hi <= hi' -> in_range lo hi c = true -> in_range lo' hi' c = true.
Proof.
  intros Hlo Hhi H. apply in_range_true in H as (v & -> & H1 & H2).
  apply in_range_true. exists v. split; [reflexivity | split; lra].
Qed.

Lemma ge_wider (x x' : Q) (c : cell) : x' <= x -> ge x c = true -> ge x' c = true.
Proof.
  unfold ge. destruct c as [v|]; [|discriminate].
  rewrite !Qle_bool_iff. intros. lra.
Qed.

(** The relaxed configuration runs whenever the default one does, and
    keeps every row the default one keeps. *)
Lemma backup_after_default (df out : DataFrame) (log : Log) :
  apply_cleaning_rules df CLEANING_CONFIG = Ok (out, log) ->
  exists out' log',
    apply_cleaning_rules df BACKUP_CONFIG = Ok (out', log') /\
    (forall row, In row (rows out) -> In row (rows out')) /\
    (len out <= len out')%Z /\ final_count log = len out /\ final_count log' = len out'.
Proof.
  intros E.
  destruct (apply_cleaning_rules_inv _ _ _ _ E)
    as (roas & cpa & cpc & cpm & minimum & E1 & E2 & E3 & E4 & E5 & Hout & _ & Hf
        & _ & _ & _ & _ & Hne).
  destruct (cleaning_config_bounds (columns df)) as (C1 & C2 & C3 & C4 & C5).
  destruct (backup_config_bounds (columns df)) as (B1 & B2 & B3 & B4 & B5).
  cbv zeta in *.
  rewrite C1 in E1. rewrite C2 in E2. rewrite C3 in E3. rewrite C4 in E4.
  rewrite C5 in E5.
  destruct (existsb (String.eqb "Spent") (columns df)
            && existsb (String.eqb "Approved_Conversion") (columns df));
    [|discriminate].
  injection E1 as <-. injection E2 as <-. injection E3 as <-. injection E4 as <-.
  injection E5 as <-.
  destruct (apply_cleaning_rules_run df _ _ _ _ _ _ B1 B2 B3 B4 B5) as [_ Hrun].
  destruct (Hrun Hne) as (log' & Erun & Hf' & _).
  eexists. exists log'. split; [exact Erun|]. cbn [rows].
  assert (Hmono : forall row,
    keeps (if existsb (String.eqb "ROAS_Approved") (columns df)
           then Some (0.01, 100) else None)
          (if existsb (String.eqb "CPA_Approved") (columns df)
           then Some (0.1, 1000) else None)
          (if existsb (String.eqb "CPC") (columns df) then Some (0.01, 50) else None)
          (if existsb (String.eqb "CPM") (columns df) then Some (0.01, 200) else None)
          (0.01, 0) row = true ->
    keeps (if existsb (String.eqb "ROAS_Approved") (columns df)
           then Some (0.001, 500) else None)
          (if existsb (String.eqb "CPA_Approved") (columns df)
           then Some (0.01, 5000) else None)
          (if existsb (String.eqb "CPC") (columns df) then Some (0.001, 100) else None)
          (if existsb (String.eqb "CPM") (columns df) then Some (0.001, 1000) else None)
          (0.001, 0) row = true).
  { intros row. unfold keeps, keeps_minimum. cbn [fst snd].
    rewrite !andb_true_iff. intros ((((H1 & H2) & H3) & H4) & (H5 & H6)).
    repeat split; try exact H6;
      try (eapply ge_wider; [|exact H5]; discriminate);
      match goal with
      | |- keeps_range (if ?b then _ else _) _ _ = true =>
          destruct b; [|reflexivity]; cbn [keeps_range] in *;
          eapply in_range_wider; [| |eassumption]; discriminate
      end. }
  split; [|split; [|split]].
  - intros row Hin. rewrite Hout in Hin. cbn [rows] in Hin.
    apply filter_In in Hin as [Hin Hk]. apply filter_In. split; [exact Hin|].
    apply Hmono, Hk.
  - rewrite Hout. unfold len. cbn [rows].
    apply inj_le. apply (count_rows_le _ _ (rows df) Hmono).
  - exact Hf.
  - exact Hf'.
Qed.

(** X24. The relaxed configuration is a relaxation: whenever the default
    cleaning returns a table, the cleaning with [BACKUP_CONFIG] returns one
    too, with every row the default one keeps and at least as many rows. *)
Theorem relaxed_configuration_keeps_more (df out : DataFrame) (log : Log) :
  apply_cleaning_rules df CLEANING_CONFIG = Ok (out, log) ->
  exists out' log',
    apply_cleaning_rules df BACKUP_CONFIG = Ok (out', log') /\
    (forall row, In row (rows out) -> In row (rows out')) /\
    (final_count log <= final_count log')%Z.
Proof.
  intros E. destruct (backup_after_default _ _ _ E)
    as (out' & log' & E' & Hin & Hle & Hf & Hf').
  exists out', log'. split; [exact E'|]. split; [exact Hin|]. lia.
Qed.

(** X25. The table written by the script (lines 229-256) is the default
    cleaning when it leaves at least 50 rows and the relaxed cleaning
    otherwise; it never has fewer rows than the default cleaning, and the
    relaxed file name is used exactly in the second case. *)
Theorem final_clean_falls_back_below_fifty (df out : DataFrame) (log : Log)
    (output_file : string) :
  final_clean df = Ok (out, log, output_file) ->
  exists default default_log,
    apply_cleaning_rules df CLEANING_CONFIG = Ok (default, default_log) /\
    (len default <= len out)%Z /\
    ((50 <= len default)%Z ->
       out = default /\ output_file = "facebook_ads_final_clean.csv"%string) /\
    ((len default < 50)%Z ->
       apply_cleaning_rules df BACKUP_CONFIG = Ok (out, log) /\
       output_file = "facebook_ads_final_clean_relaxed.csv"%string).
Proof.
  unfold final_clean. intros E.
  apply rbind_inv in E as ([default default_log] & Ed & E).
  exists default, default_log. split; [exact Ed|].
  destruct (len default <? 50)%Z eqn:El.
  - apply rbind_inv in E as ([out' log'] & Eb & E). injection E as <- <- <-.
    destruct (backup_after_default _ _ _ Ed) as (o & l & Eb' & _ & Hle & _).
    rewrite Eb in Eb'. injection Eb' as <- <-.
    split; [exact Hle|]. split; [lia|]. intros _. auto.
  - injection E as <- <- <-. split; [lia|]. split; [auto | lia].
Qed.

Lemma mask_sum_cons (b : bool) (mask : list bool) :
  mask_sum (b :: mask) = ((if b then 1 else 0) + mask_sum mask)%Z.
Proof.
  unfold mask_sum. destruct b; cbn [List.filter List.length]; lia.
Qed.

(** With [min_val <= max_val] a cell is too high, too low, missing or
    in range, and only one of these. *)
Lemma cell_outlier_or_in_range (min_val max_val : Q) (c : cell) :
  min_val <= max_val ->
  ((if gt max_val c then 1 else 0) + (if lt min_val c then 1 else 0) +
   (if isnull c then 1 else 0) + (if in_range min_val max_val c then 1 else 0) = 1)%Z.
Proof.
  intros H. unfold gt, lt, isnull, in_range, ge, le, notna, Qgtb.
  destruct c as [v|]; [|reflexivity]. cbn [negb].
  cmp max_val v; cmp v min_val;
    destruct (Qle_bool min_val v) eqn:E1; destruct (Qle_bool v max_val) eqn:E2;
    try reflexivity; exfalso;
    try (apply Qle_bool_iff in E1); try (apply Qle_bool_iff in E2);
    try lra;
    try (assert (Hx : min_val <= v) by lra; apply Qle_bool_iff in Hx; congruence);
    try (assert (Hx : v <= max_val) by lra; apply Qle_bool_iff in Hx; congruence).
Qed.

(** X26. For a metric that is a column and bounds with [min_val <=
    max_val], the number returned by [identify_outliers] is the number of
    rows a range rule with these bounds removes: the rows whose value is
    not a number within the bounds. *)
Theorem identify_outliers_counts_rows_removed (df : DataFrame) (metric : string)
    (min_val max_val : Q) :
  has_column df metric = true -> min_val <= max_val ->
  identify_outliers df metric min_val max_val =
    Ok (PyInt (len df -
               count_of (List.filter
                           (fun row => in_range min_val max_val (value row metric))
                           (rows df)))).
Proof.
  intros Hc Hle. unfold identify_outliers. rewrite Hc. cbn [negb].
  rewrite (column_present _ _ Hc). cbn [rbind]. rewrite !map_map.
  do 2 f_equal. unfold len, count_of.
  induction (rows df) as [|row l IH].
  - reflexivity.
  - cbn [List.map List.filter]. rewrite !mask_sum_cons.
    pose proof (cell_outlier_or_in_range min_val max_val (value row metric) Hle) as H1.
    destruct (in_range min_val max_val (value row metric));
      cbn [List.length]; rewrite ?Nat2Z.inj_succ; lia.
Qed.

End OutlierFacts.

(** * The two scripts in sequence *)



(** * The further theorems on concrete inputs *)

Lemma single_click_record_witness :
  (Clicks one_click_row = 1%Z) /\
  (exists (cvr : Q) (s1 : Z) (row' : Row) (s' : Z),
  realistic_cvr Lcg.uniform one_click_row 0%Z = Ok (cvr, s1) /\
  fix_row Lcg.uniform Lcg.random Lcg.binomial one_click_row 0%Z = Ok (row', s') /\
  Total_Conversion row' =
  (if Qltb (fst (Lcg.random s1)) (cvr * inject_Z 1) then 1%Z else 0%Z) /\
  Approved_Conversion row' = 0%Z /\
  Revenue_Approved row' = 0 /\ CPA_Approved row' = 0 /\ ROAS_Approved row' == 0).
Proof.
  assert (H0 : Clicks one_click_row = 1%Z) by (reflexivity).
  split; [exact H0|].
  exact (single_click_record Z Lcg.uniform Lcg.random Lcg.binomial lcg_uniform_range
    lcg_binomial_range one_click_row 0%Z H0).
Defined.

Lemma thirty_clicks_always_binomial_witness :
  ((30 <= Clicks sixty_click_row)%Z) /\
  (exists (cvr : Q) (s1 : Z) (row' : Row) (s' : Z),
  realistic_cvr Lcg.uniform sixty_click_row 0%Z = Ok (cvr, s1) /\
  fix_row Lcg.uniform Lcg.random Lcg.binomial sixty_click_row 0%Z =
  Ok (row', s') /\
  Total_Conversion row' = fst (Lcg.binomial (Clicks sixty_click_row) cvr s1)).
Proof.
  assert (H0 : (30 <= Clicks sixty_click_row)%Z) by (vm_compute; discriminate).
  split; [exact H0|].
  exact (thirty_clicks_always_binomial Z Lcg.uniform Lcg.random Lcg.binomial
    lcg_uniform_range lcg_binomial_range sixty_click_row 0%Z H0).
Defined.



Lemma approved_revenue_at_most_total_witness :
  exists (out : list Row) (s' : Z),
  fix_data_comprehensive Lcg.uniform Lcg.random Lcg.binomial Lcg.seed
    sample_table 0%Z =
  Ok (out, s') /\
  Forall
    (fun r : Row =>
     0 <= Revenue_Approved r <= Revenue_Total r /\
     0 <= ROAS_Approved r <= ROAS_Total r)
    out.
Proof.
  exact (approved_revenue_at_most_total Z Lcg.uniform Lcg.random Lcg.binomial
    Lcg.seed lcg_uniform_range lcg_binomial_range sample_table 0%Z ).
Defined.


Lemma conversion_rates_are_proportions_witness :
  (Forall (fun r => (0 <= Clicks r)%Z) sample_table) /\
  (exists (out : list Row) (s' : Z),
  fix_data_comprehensive Lcg.uniform Lcg.random Lcg.binomial Lcg.seed
    sample_table 0%Z =
  Ok (out, s') /\
  Forall
    (fun r : Row => 0 <= CVR_Approved r /\ CVR_Approved r <= CVR_Total r <= 1)
    out).
Proof.
  assert (H0 : Forall (fun r => (0 <= Clicks r)%Z) sample_table) by (repeat
    constructor; discriminate).
  split; [exact H0|].
  exact (conversion_rates_are_proportions Z Lcg.uniform Lcg.random Lcg.binomial
    Lcg.seed lcg_uniform_range lcg_binomial_range sample_table 0%Z H0).
Defined.

Lemma input_columns_and_order_kept_witness :
  exists (out : list Row) (s' : Z),
  fix_data_comprehensive Lcg.uniform Lcg.random Lcg.binomial Lcg.seed
    sample_table 0%Z =
  Ok (out, s') /\ map input_columns out = map input_columns sample_table.
Proof.
  exact (input_columns_and_order_kept Z Lcg.uniform Lcg.random Lcg.binomial Lcg.seed
    lcg_uniform_range lcg_binomial_range sample_table 0%Z ).
Defined.

Lemma revenue_conversion_fully_consistent_witness :
  exists (out : list Row) (s' : Z),
  fix_data_comprehensive Lcg.uniform Lcg.random Lcg.binomial Lcg.seed
    sample_table 0%Z =
  Ok (out, s') /\
  Datatypes.length out = Datatypes.length sample_table /\
  revenue_conv_consistent out = Datatypes.length out.
Proof.
  exact (revenue_conversion_fully_consistent Z Lcg.uniform Lcg.random Lcg.binomial
    Lcg.seed lcg_uniform_range lcg_binomial_range sample_table 0%Z ).
Defined.

Lemma loop_threads_one_stream_witness :
  (fix_rows Lcg.uniform Lcg.random Lcg.binomial sample_head 0%Z = Ok (fst sample_head_run, snd sample_head_run)) /\
  (fix_rows Lcg.uniform Lcg.random Lcg.binomial sample_tail (snd sample_head_run) = Ok (fst sample_tail_run, snd sample_tail_run)) /\
  (fix_rows Lcg.uniform Lcg.random Lcg.binomial (sample_head ++ sample_tail) 0%Z =
Ok (fst sample_head_run ++ fst sample_tail_run, snd sample_tail_run)).
Proof.
  assert (H0 : fix_rows Lcg.uniform Lcg.random Lcg.binomial sample_head 0%Z = Ok (fst
    sample_head_run, snd sample_head_run)) by (vm_compute; reflexivity).
  assert (H1 : fix_rows Lcg.uniform Lcg.random Lcg.binomial sample_tail (snd
    sample_head_run) = Ok (fst sample_tail_run, snd sample_tail_run)) by (vm_compute;
    reflexivity).
  split; [exact H0|].
  split; [exact H1|].
  exact (loop_threads_one_stream Z Lcg.uniform Lcg.random Lcg.binomial sample_head
    sample_tail (fst sample_head_run) (fst sample_tail_run) 0%Z (snd sample_head_run)
    (snd sample_tail_run) H0 H1).
Defined.



Lemma cleaning_keeps_rows_within_bounds_witness :
  (Outlier.apply_cleaning_rules sample_frame Outlier.CLEANING_CONFIG = Ok (fst sample_cleaned, snd sample_cleaned)) /\
  (exists (roas cpa cpc cpm : option (Q * Q)) (minimum : Q * Q),
  Outlier.rule_bounds (Outlier.columns sample_frame) Outlier.CLEANING_CONFIG
    "ROAS_Approved" "ROAS_MIN" "ROAS_MAX" =
  Ok roas /\
  Outlier.rule_bounds (Outlier.columns sample_frame) Outlier.CLEANING_CONFIG
    "CPA_Approved" "CPA_MIN" "CPA_MAX" =
  Ok cpa /\
  Outlier.rule_bounds (Outlier.columns sample_frame) Outlier.CLEANING_CONFIG
    "CPC" "CPC_MIN" "CPC_MAX" =
  Ok cpc /\
  Outlier.rule_bounds (Outlier.columns sample_frame) Outlier.CLEANING_CONFIG
    "CPM" "CPM_MIN" "CPM_MAX" =
  Ok cpm /\
  Outlier.minimum_bounds (Outlier.columns sample_frame) Outlier.CLEANING_CONFIG =
  Ok minimum /\
  Outlier.columns (fst sample_cleaned) = Outlier.columns sample_frame /\
  Outlier.rows (fst sample_cleaned) =
  filter (Outlier.keeps roas cpa cpc cpm minimum) (Outlier.rows sample_frame)).
Proof.
  assert (H0 : Outlier.apply_cleaning_rules sample_frame Outlier.CLEANING_CONFIG = Ok
    (fst sample_cleaned, snd sample_cleaned)) by (vm_compute; reflexivity).
  split; [exact H0|].
  exact (cleaning_keeps_rows_within_bounds sample_frame (fst sample_cleaned)
    Outlier.CLEANING_CONFIG (snd sample_cleaned) H0).
Defined.

Lemma cleaning_log_adds_up_witness :
  (Outlier.apply_cleaning_rules sample_frame Outlier.CLEANING_CONFIG = Ok (fst sample_cleaned, snd sample_cleaned)) /\
  (Outlier.original_count (snd sample_cleaned) = Outlier.len sample_frame /\
Outlier.final_count (snd sample_cleaned) = Outlier.len (fst sample_cleaned) /\
(0 <= Outlier.final_count (snd sample_cleaned) <=
 Outlier.original_count (snd sample_cleaned))%Z /\
Outlier.original_count (snd sample_cleaned) =
(Outlier.final_count (snd sample_cleaned) +
 Outlier.total_removed (snd sample_cleaned))%Z /\
Outlier.sum_removed (Outlier.steps (snd sample_cleaned)) =
Outlier.total_removed (snd sample_cleaned) /\
Forall (fun st : Outlier.rule * Z => (0 <= snd st)%Z)
  (Outlier.steps (snd sample_cleaned)) /\
0 <= Outlier.removal_rate (snd sample_cleaned) <= 100).
Proof.
  assert (H0 : Outlier.apply_cleaning_rules sample_frame Outlier.CLEANING_CONFIG = Ok
    (fst sample_cleaned, snd sample_cleaned)) by (vm_compute; reflexivity).
  split; [exact H0|].
  exact (cleaning_log_adds_up sample_frame (fst sample_cleaned)
    Outlier.CLEANING_CONFIG (snd sample_cleaned) H0).
Defined.

Lemma cleaning_twice_removes_nothing_witness :
  (Outlier.apply_cleaning_rules sample_frame Outlier.CLEANING_CONFIG = Ok (fst sample_cleaned, snd sample_cleaned)) /\
  (Outlier.rows (fst sample_cleaned) <> []) /\
  (exists log' : Outlier.Log,
  Outlier.apply_cleaning_rules (fst sample_cleaned) Outlier.CLEANING_CONFIG =
  Ok (fst sample_cleaned, log') /\
  Outlier.total_removed log' = 0%Z /\ Outlier.removal_rate log' == 0).
Proof.
  assert (H0 : Outlier.apply_cleaning_rules sample_frame Outlier.CLEANING_CONFIG = Ok
    (fst sample_cleaned, snd sample_cleaned)) by (vm_compute; reflexivity).
  assert (H1 : Outlier.rows (fst sample_cleaned) <> []) by (vm_compute; discriminate).
  split; [exact H0|].
  split; [exact H1|].
  exact (cleaning_twice_removes_nothing sample_frame (fst sample_cleaned)
    Outlier.CLEANING_CONFIG (snd sample_cleaned) H0 H1).
Defined.

Lemma cleaning_empty_table_divides_by_zero_witness :
  (Outlier.rows (Outlier.mkFrame clean_csv_columns []) = []) /\
  (Outlier.has_column (Outlier.mkFrame clean_csv_columns []) "Spent" = true) /\
  (Outlier.has_column (Outlier.mkFrame clean_csv_columns []) "Approved_Conversion" = true) /\
  (Outlier.apply_cleaning_rules
  {| Outlier.columns := clean_csv_columns; Outlier.rows := [] |}
  Outlier.CLEANING_CONFIG =
Raise ZeroDivisionError /\
Outlier.apply_cleaning_rules
  {| Outlier.columns := clean_csv_columns; Outlier.rows := [] |}
  Outlier.BACKUP_CONFIG =
Raise ZeroDivisionError).
Proof.
  assert (H0 : Outlier.rows (Outlier.mkFrame clean_csv_columns []) = []) by
    (reflexivity).
  assert (H1 : Outlier.has_column (Outlier.mkFrame clean_csv_columns []) "Spent" =
    true) by (reflexivity).
  assert (H2 : Outlier.has_column (Outlier.mkFrame clean_csv_columns [])
    "Approved_Conversion" = true) by (reflexivity).
  split; [exact H0|].
  split; [exact H1|].
  split; [exact H2|].
  exact (cleaning_empty_table_divides_by_zero (Outlier.mkFrame clean_csv_columns [])
    H0 H1 H2).
Defined.

Lemma cleaning_requires_spent_and_approved_witness :
  (Outlier.has_column frame_without_spent "Spent" = false \/ Outlier.has_column frame_without_spent "Approved_Conversion" = false) /\
  (Outlier.apply_cleaning_rules frame_without_spent Outlier.CLEANING_CONFIG =
Raise KeyError).
Proof.
  assert (H0 : Outlier.has_column frame_without_spent "Spent" = false \/
    Outlier.has_column frame_without_spent "Approved_Conversion" = false) by (left;
    reflexivity).
  split; [exact H0|].
  exact (cleaning_requires_spent_and_approved frame_without_spent H0).
Defined.

Lemma relaxed_configuration_keeps_more_witness :
  (Outlier.apply_cleaning_rules sample_frame Outlier.CLEANING_CONFIG = Ok (fst sample_cleaned, snd sample_cleaned)) /\
  (exists (out' : Outlier.DataFrame) (log' : Outlier.Log),
  Outlier.apply_cleaning_rules sample_frame Outlier.BACKUP_CONFIG =
  Ok (out', log') /\
  (forall row : Outlier.frame_row,
   In row (Outlier.rows (fst sample_cleaned)) -> In row (Outlier.rows out')) /\
  (Outlier.final_count (snd sample_cleaned) <= Outlier.final_count log')%Z).
Proof.
  assert (H0 : Outlier.apply_cleaning_rules sample_frame Outlier.CLEANING_CONFIG = Ok
    (fst sample_cleaned, snd sample_cleaned)) by (vm_compute; reflexivity).
  split; [exact H0|].
  exact (relaxed_configuration_keeps_more sample_frame (fst sample_cleaned) (snd
    sample_cleaned) H0).
Defined.

Lemma final_clean_falls_back_below_fifty_witness :
  (Outlier.final_clean sample_frame = Ok (fst (fst sample_final), snd (fst sample_final), snd sample_final)) /\
  (exists (default : Outlier.DataFrame) (default_log : Outlier.Log),
  Outlier.apply_cleaning_rules sample_frame Outlier.CLEANING_CONFIG =
  Ok (default, default_log) /\
  (Outlier.len default <= Outlier.len (fst (fst sample_final)))%Z /\
  ((50 <= Outlier.len default)%Z ->
   fst (fst sample_final) = default /\
   snd sample_final = "facebook_ads_final_clean.csv"%string) /\
  ((Outlier.len default < 50)%Z ->
   Outlier.apply_cleaning_rules sample_frame Outlier.BACKUP_CONFIG =
   Ok (fst (fst sample_final), snd (fst sample_final)) /\
   snd sample_final = "facebook_ads_final_clean_relaxed.csv"%string)).
Proof.
  assert (H0 : Outlier.final_clean sample_frame = Ok (fst (fst sample_final), snd
    (fst sample_final), snd sample_final)) by (vm_compute; reflexivity).
  split; [exact H0|].
  exact (final_clean_falls_back_below_fifty sample_frame (fst (fst sample_final))
    (snd (fst sample_final)) (snd sample_final) H0).
Defined.

Lemma identify_outliers_counts_rows_removed_witness :
  (Outlier.has_column sample_frame "ROAS_Approved" = true) /\
  (0.01 <= 100) /\
  (Outlier.identify_outliers sample_frame "ROAS_Approved" 0.01 100 =
Ok
  (Outlier.PyInt
     (Outlier.len sample_frame -
      Outlier.count_of
        (filter
           (fun row : Outlier.frame_row =>
            Outlier.in_range 0.01 100 (Outlier.value row "ROAS_Approved"))
           (Outlier.rows sample_frame))))).
Proof.
  assert (H0 : Outlier.has_column sample_frame "ROAS_Approved" = true) by (reflexivity).
  assert (H1 : 0.01 <= 100) by (discriminate).
  split; [exact H0|].
  split; [exact H1|].
  exact (identify_outliers_counts_rows_removed sample_frame "ROAS_Approved"%string
    0.01 100 H0 H1).
Defined.

